(* ===================================================================== *)
(*  cktap/proto.py : the protocol engine of the tap-card client          *)
(*                                                                       *)
(*  A shallow embedding of class CKTapCard (send, first_look, send_auth, *)
(*  address, change_cvc, certificate_check, unseal_slot, get_slot_usage) *)
(*  as computations of a state-and-exception monad, and the properties   *)
(*  of the protocol that the specification states about them.            *)
(* ===================================================================== *)

From Stdlib Require Import ZArith NArith Ascii String List Lia.
From stdpp Require Import base option list gmap strings fin_maps.

Local Open Scope string_scope.
Local Open Scope Z_scope.

(* --------------------------------------------------------------------- *)
(*  Python values                                                        *)
(* --------------------------------------------------------------------- *)

(** The values that travel in argument and result maps (what the CBOR
    codec produces) and that the session keeps in its attributes.  A byte
    string is a list of bytes, each an [N] below 256. *)
#[warnings="-register-all"]
Inductive Val : Type :=
  | VNone
  | VBool (b : bool)
  | VInt (z : Z)
  | VBytes (bs : list N)
  | VStr (s : string)
  | VList (vs : list Val)
  | VTuple (vs : list Val).

(** A keyword-argument map or a result map: a Python [dict] with string
    keys. *)
Abbreviation Args := (gmap string Val).

(** The pieces of a formatted message: literal text, a value put in by
    [%] or an f-string field, and the [repr] of a map. *)
Inductive Text : Type :=
  | Lit (s : string)
  | Fmt (v : Val)
  | Repr (m : Args).

(** The exceptions the engine raises or lets through.  [CardRuntimeError]
    is built at the end of [send] from the text
    [f'{code} on {cmd}: {msg}'], the code and the message. *)
Inductive Exn : Type :=
  | CardRuntimeError (text : list Text) (code msg : Val)
  | AssertionError (text : list Text)
  | RuntimeError (text : list Text)
  | ValueError (text : list Text)
  | KeyError (key : string)
  | AttributeError (name : string)
  | IndexError
  | TypeError
  | OtherError (text : list Text).

(** The outcome of a call that may raise. *)
Inductive Res (A : Type) : Type :=
  | Ok (a : A)
  | Raise (e : Exn).
Arguments Ok {A} a.
Arguments Raise {A} e.

(* --------------------------------------------------------------------- *)
(*  Python operators on values                                           *)
(* --------------------------------------------------------------------- *)

(** [bool(v)], the test of [if v:], [assert v] and [v or w]. *)
Definition truthy (v : Val) : bool :=
  match v with
  | VNone => false
  | VBool b => b
  | VInt z => negb (z =? 0)
  | VBytes bs => negb (Nat.eqb (length bs) 0)
  | VStr s => negb (Nat.eqb (String.length s) 0)
  | VList vs => negb (Nat.eqb (length vs) 0)
  | VTuple vs => negb (Nat.eqb (length vs) 0)
  end.

Definition Z_of_bool (b : bool) : Z := if b then 1 else 0.

Definition list_N_eqb (a b : list N) : bool := bool_decide (a = b).

(** [v == w].  [bool] is a subclass of [int], so [True == 1] and
    [False == 0]; a list never equals a tuple. *)
Fixpoint py_eq (v w : Val) {struct v} : bool :=
  let fix all_eq (vs ws : list Val) {struct vs} : bool :=
    match vs, ws with
    | [], [] => true
    | x :: vs', y :: ws' => py_eq x y && all_eq vs' ws'
    | _, _ => false
    end in
  match v, w with
  | VNone, VNone => true
  | VBool a, VBool b => Z_of_bool a =? Z_of_bool b
  | VBool a, VInt z => Z_of_bool a =? z
  | VInt z, VBool b => z =? Z_of_bool b
  | VInt a, VInt b => a =? b
  | VBytes a, VBytes b => list_N_eqb a b
  | VStr a, VStr b => bool_decide (a = b)
  | VList vs, VList ws => all_eq vs ws
  | VTuple vs, VTuple ws => all_eq vs ws
  | _, _ => false
  end.

(** [len(v)]. *)
Definition py_len (v : Val) : Res Z :=
  match v with
  | VBytes bs => Ok (Z.of_nat (length bs))
  | VStr s => Ok (Z.of_nat (String.length s))
  | VList vs => Ok (Z.of_nat (length vs))
  | VTuple vs => Ok (Z.of_nat (length vs))
  | _ => Raise TypeError
  end.

(** [d.get(k, dflt)] and [k in d]. *)
Definition dict_get (d : Args) (k : string) (dflt : Val) : Val :=
  default dflt (d !! k).

Definition has_key (d : Args) (k : string) : bool :=
  bool_decide (is_Some (d !! k)).

(** [d[k]]. *)
Definition dict_item (d : Args) (k : string) : Res Val :=
  match d !! k with
  | Some v => Ok v
  | None => Raise (KeyError k)
  end.

(** [v[0]] for a sequence [v]. *)
Definition py_first (v : Val) : Res Val :=
  match v with
  | VList (x :: _) | VTuple (x :: _) => Ok x
  | VList [] | VTuple [] => Raise IndexError
  | VBytes (b :: _) => Ok (VInt (Z.of_N b))
  | VBytes [] => Raise IndexError
  | VStr (String c _) => Ok (VStr (String c EmptyString))
  | VStr EmptyString => Raise IndexError
  | _ => Raise TypeError
  end.

(** [a, b = v]: the right-hand side is unpacked in full before either
    target is assigned. *)
Definition unpack2 (v : Val) : Res (Val * Val) :=
  match v with
  | VList [a; b] | VTuple [a; b] => Ok (a, b)
  | VList _ | VTuple _ => Raise (ValueError [Lit "wrong number of values to unpack"])
  | VBytes [a; b] => Ok (VInt (Z.of_N a), VInt (Z.of_N b))
  | VBytes _ => Raise (ValueError [Lit "wrong number of values to unpack"])
  | VStr (String a (String b EmptyString)) =>
      Ok (VStr (String a EmptyString), VStr (String b EmptyString))
  | VStr _ => Raise (ValueError [Lit "wrong number of values to unpack"])
  | _ => Raise TypeError
  end.

(** [key[0:n]] on a session key, as [send_auth] writes it for 'change'. *)
Definition slice_to (key : Val) (n : Z) : Res Val :=
  match key with
  | VBytes bs => Ok (VBytes (take (Z.to_nat n) bs))
  | VStr s => Ok (VStr (String.substring 0 (Z.to_nat n) s))
  | VList vs => Ok (VList (take (Z.to_nat n) vs))
  | VTuple vs => Ok (VTuple (take (Z.to_nat n) vs))
  | _ => Raise TypeError
  end.

(** Modelled from the spec: [xor_bytes] of cktap/utils.py, which is not
    part of the sources at hand.  The specification calls it a byte-wise
    XOR of two byte strings; an operand that is no byte string (such as
    [None]) cannot be traversed and is a [TypeError], and operands of
    different lengths are refused. *)
Definition xor_bytes (a b : Val) : Res Val :=
  match a, b with
  | VBytes x, VBytes y =>
      if Nat.eqb (length x) (length y)
      then Ok (VBytes (zip_with N.lxor x y))
      else Raise (AssertionError [])
  | _, _ => Raise TypeError
  end.

(** ["%04x" % n]: lower-case hexadecimal, padded with zeros to four
    digits. *)
Definition hex_digit (n : N) : ascii :=
  match n with
  | 0 => "0" | 1 => "1" | 2 => "2" | 3 => "3" | 4 => "4" | 5 => "5"
  | 6 => "6" | 7 => "7" | 8 => "8" | 9 => "9" | 10 => "a" | 11 => "b"
  | 12 => "c" | 13 => "d" | 14 => "e" | _ => "f"
  end%N%char.

Fixpoint hex_rev (fuel : nat) (n : N) : list ascii :=
  match fuel with
  | O => []
  | S fuel' =>
      if (n =? 0)%N then []
      else hex_digit (n mod 16) :: hex_rev fuel' (n / 16)
  end.

Definition hex04 (n : N) : string :=
  let ds := rev (hex_rev (N.to_nat (N.size n)) n) in
  string_of_list_ascii (replicate (4 - length ds)%nat "0"%char ++ ds).


(* --------------------------------------------------------------------- *)
(*  The outside of the engine                                            *)
(* --------------------------------------------------------------------- *)

(** What proto.py imports and is handed: the transport object [self.tr],
    the constant [SW_OKAY] of cktap/constants.py and the helpers of
    cktap/utils.py.  [Ext] is the state of the outside world: the card at
    the other end of the transport and the random source behind
    [pick_nonce] and the ephemeral key of [calc_xcvc]. *)
Class Externals (Ext : Type) := {
  SW_OKAY : N;
  tr_send : string → Args → Ext → Res (N * Args) * Ext;
  pick_nonce : Ext → Res Val * Ext;
  calc_xcvc : string → Val → Val → Val → Ext → Res (Val * Args) * Ext;
  card_pubkey_to_ident : Val → Res Val;
  force_bytes : Val → Res Val;
  recover_address : Args → Args → Val → Res (Val * Val);
  verify_master_pubkey : Val → Val → Val → Val → Val → Res Val;
  verify_derive_address : Val → Val → Val → Res (Val * Val);
  verify_certs : Args → Args → Args → Val → Res Val;
  render_address : Val → Val → Res Val
}.

(** A session and its surroundings: the attributes of the [CKTapCard]
    instance ([self.__dict__]), the outside world, and the commands handed
    to the transport so far, most recent first. *)
Record World (Ext : Type) := MkWorld {
  attrs : gmap string Val;
  ext : Ext;
  sent : list (string * Args)
}.
Arguments MkWorld {Ext} _ _ _.
Arguments attrs {Ext} _.
Arguments ext {Ext} _.
Arguments sent {Ext} _.

(* --------------------------------------------------------------------- *)
(*  The monad of methods                                                 *)
(* --------------------------------------------------------------------- *)

(** A method runs in a world and ends with a value or an exception; what
    it did to the world before raising stays done. *)
Definition M (Ext A : Type) : Type := World Ext → Res A * World Ext.

Definition ret {Ext A} (a : A) : M Ext A := λ w, (Ok a, w).

Definition raise {Ext A} (e : Exn) : M Ext A := λ w, (Raise e, w).

Definition bind {Ext A B} (m : M Ext A) (k : A → M Ext B) : M Ext B :=
  λ w, match m w with
       | (Ok a, w') => k a w'
       | (Raise e, w') => (Raise e, w')
       end.

#[global] Instance M_ret {Ext} : MRet (M Ext) := λ A, ret.
#[global] Instance M_bind {Ext} : MBind (M Ext) := λ A B k m, bind m k.

Definition lift {Ext A} (r : Res A) : M Ext A := λ w, (r, w).

(** [assert b, text]. *)
Definition assert_ {Ext} (b : bool) (text : list Text) : M Ext unit :=
  if b then ret tt else raise (AssertionError text).

(** [self.name] and [self.name = v]. *)
Definition get_attr {Ext} (name : string) : M Ext Val :=
  λ w, match attrs w !! name with
       | Some v => (Ok v, w)
       | None => (Raise (AttributeError name), w)
       end.

Definition set_attr {Ext} (name : string) (v : Val) : M Ext unit :=
  λ w, (Ok tt, MkWorld (<[name := v]> (attrs w)) (ext w) (sent w)).

(** A call of a helper that draws on the outside world. *)
Definition ext_call {Ext A} (f : Ext → Res A * Ext) : M Ext A :=
  λ w, let '(r, e) := f (ext w) in (r, MkWorld (attrs w) e (sent w)).

Section Engine.
Context {Ext : Type} `{!Externals Ext}.

(** [self.tr.send(cmd, **args)]: one round trip, recorded in [sent]. *)
Definition transport (cmd : string) (args : Args) : M Ext (N * Args) :=
  λ w, let '(r, e) := tr_send cmd args (ext w) in
       (r, MkWorld (attrs w) e ((cmd, args) :: sent w)).

(** What [send] makes of a response before looking at the nonce: a bad
    status word is promoted to an error and recorded in the map. *)
Definition promote (stat_word : N) (resp : Args) : Args :=
  if negb (stat_word =? SW_OKAY)%N then
    let resp :=
      if negb (has_key resp "error")
      then <["error" := VStr ("Got error SW value: 0x" ++ hex04 stat_word)]> resp
      else resp in
    <["stat_word" := VInt (Z.of_N stat_word)]> resp
  else resp.

(** [send(self, cmd, raise_on_error=True, **args)]. *)
Definition send (cmd : string) (raise_on_error : bool) (args : Args)
    : M Ext Args :=
  '(stat_word, resp) ← transport cmd args;
  let resp := promote stat_word resp in
  match resp !! "card_nonce" with
  | Some n => set_attr "card_nonce" n
  | None => ret tt
  end;;
  match resp !! "error" with
  | Some msg =>
      if raise_on_error then
        let resp := delete "error" resp in
        let code := dict_get resp "code" (VInt 500) in
        raise (CardRuntimeError
                 [Fmt code; Lit " on "; Lit cmd; Lit ": "; Fmt msg] code msg)
      else ret resp
  | None => ret resp
  end.

(** The world [send] leaves behind, whatever its outcome. *)
Definition after_send (cmd : string) (args : Args) (w : World Ext)
    (sw : N) (resp : Args) (e' : Ext) : World Ext :=
  MkWorld (match resp !! "card_nonce" with
           | Some n => <["card_nonce" := n]> (attrs w)
           | None => attrs w
           end) e' ((cmd, args) :: sent w).

(** [self.send(cmd, **args)] with a map built at run time: Python binds
    an entry named like a formal parameter of [send] to that parameter,
    and refuses one that names a parameter already given by position. *)
Definition send_kw (cmd : string) (args : Args) : M Ext Args :=
  if has_key args "self" || has_key args "cmd" then raise TypeError
  else send cmd (from_option truthy true (args !! "raise_on_error"))
            (delete "raise_on_error" args).

(** Protocol arguments: a map none of whose keys is taken by a formal
    parameter of [send]; [send_kw] passes such a map on as it is. *)
Definition kw_plain (args : Args) : Prop :=
  args !! "self" = None ∧ args !! "cmd" = None ∧
  args !! "raise_on_error" = None.

(** Run in [w], the method hands exactly one command to the transport. *)
Definition transmits {A} (m : M Ext A) (w : World Ext)
    (cmd : string) (args : Args) : Prop :=
  sent (m w).2 = (cmd, args) :: sent w.

(** [first_look(self)]. *)
Definition first_look : M Ext unit :=
  st ← send "status" true ∅;
  assert_ (negb (has_key st "error")) [Lit "Early failure: "; Repr st];;
  proto ← lift (dict_item st "proto");
  assert_ (py_eq proto (VInt 1)) [Lit "Unknown card protocol version"];;
  pubkey ← lift (dict_item st "pubkey");
  set_attr "card_pubkey" pubkey;;
  pubkey ← get_attr "card_pubkey";
  ident ← lift (card_pubkey_to_ident pubkey);
  set_attr "card_ident" ident;;
  ver ← lift (dict_item st "ver");
  set_attr "applet_version" ver;;
  set_attr "birth_height" (dict_get st "birth" VNone);;
  set_attr "is_testnet" (dict_get st "testnet" (VBool false));;
  set_attr "auth_delay" (dict_get st "auth_delay" (VInt 0));;
  set_attr "is_tapsigner" (dict_get st "tapsigner" (VBool false));;
  '(active, num) ← lift (unpack2 (dict_get st "slots" (VTuple [VInt 0; VInt 1])));
  set_attr "active_slot" active;;
  set_attr "num_slots" num;;
  nonce ← get_attr "card_nonce";
  assert_ (truthy nonce) [];;
  set_attr "_certs_checked" (VBool false).

(** [send_auth(self, cmd, cvc, **args)]. *)
Definition send_auth (cmd : string) (cvc : Val) (args : Args)
    : M Ext (Val * Args) :=
  '(session_key, args) ←
    (if truthy cvc then
       nonce ← get_attr "card_nonce";
       pubkey ← get_attr "card_pubkey";
       '(session_key, auth_args) ← ext_call (calc_xcvc cmd nonce pubkey cvc);
       ret (session_key, auth_args ∪ args)
     else ret (VNone, args));
  args ←
    (if bool_decide (cmd = "sign") then
       digest ← lift (dict_item args "digest");
       masked ← lift (xor_bytes digest session_key);
       ret (<["digest" := masked]> args)
     else if bool_decide (cmd = "change") then
       data ← lift (dict_item args "data");
       data' ← lift (dict_item args "data");
       n ← lift (py_len data');
       key ← lift (slice_to session_key n);
       masked ← lift (xor_bytes data key);
       ret (<["data" := masked]> args)
     else ret args);
  resp ← send_kw cmd args;
  ret (session_key, resp).

(** [certificate_check(self)]. *)
Definition certificate_check : M Ext Val :=
  st ← send "status" true ∅;
  certs ← send "certs" true ∅;
  n ← ext_call pick_nonce;
  check ← send "check" true {[ "nonce" := n ]};
  rv ← lift (verify_certs st check certs n);
  set_attr "_certs_checked" (VBool true);;
  ret rv.

(** [address(self, faster=False, incl_pubkey=False, slot=None)]. *)
Definition address (faster incl_pubkey : bool) (slot : Val) : M Ext Val :=
  is_tapsigner ← get_attr "is_tapsigner";
  assert_ (negb (truthy is_tapsigner)) [];;
  checked ← get_attr "_certs_checked";
  (if negb (truthy checked) && negb faster
   then certificate_check;; ret tt
   else ret tt);;
  st ← send "status" true ∅;
  slots ← lift (dict_item st "slots");
  cur_slot ← lift (py_first slots);
  let slot := match slot with VNone => cur_slot | _ => slot end in
  if negb (has_key st "addr") && py_eq cur_slot slot then ret VNone
  else if negb (py_eq slot cur_slot) then
    rr ← send "dump" true {[ "slot" := slot ]};
    assert_ (negb incl_pubkey) [Lit "can only get pubkey on current slot"];;
    lift (dict_item rr "addr")
  else
    n ← ext_call pick_nonce;
    rr ← send "read" true {[ "nonce" := n ]};
    '(pubkey, addr) ← lift (recover_address st rr n);
    (if negb faster then
       my_nonce ← ext_call pick_nonce;
       card_nonce ← get_attr "card_nonce";
       rr ← send "derive" true {[ "nonce" := my_nonce ]};
       master_pubkey ← lift (dict_item rr "master_pubkey");
       sig ← lift (dict_item rr "sig");
       chain_code ← lift (dict_item rr "chain_code");
       master_pub ← lift (verify_master_pubkey master_pubkey sig chain_code
                                                my_nonce card_nonce);
       chain_code ← lift (dict_item rr "chain_code");
       testnet ← get_attr "is_testnet";
       '(derived_addr, _) ← lift (verify_derive_address chain_code master_pub
                                                          testnet);
       if negb (py_eq derived_addr addr)
       then raise (ValueError [Lit "card did not derive address as expected"])
       else ret tt
     else ret tt);;
    if incl_pubkey then ret (VTuple [pubkey; addr]) else ret addr.

(** [change_cvc(self, old_cvc, new_cvc)]. *)
Definition change_cvc (old_cvc new_cvc : Val) : M Ext unit :=
  n ← lift (py_len new_cvc);
  assert_ ((6 <=? n) && (n <=? 32)) [];;
  data ← lift (force_bytes new_cvc);
  send_auth "change" old_cvc {[ "data" := data ]};;
  ret tt.

(** [unseal_slot(self, cvc)]. *)
Definition unseal_slot (cvc : Val) : M Ext (Val * Val) :=
  is_tapsigner ← get_attr "is_tapsigner";
  assert_ (negb (truthy is_tapsigner)) [];;
  target ← get_attr "active_slot";
  resp ← send "dump" true {[ "slot" := target ]};
  if py_eq (dict_get resp "sealed" VNone) (VBool false) then
    raise (RuntimeError [Lit "Slot "; Fmt target;
                         Lit " has already been unsealed."])
  else if negb (py_eq (dict_get resp "sealed" VNone) (VBool true)) then
    raise (RuntimeError [Lit "Slot "; Fmt target;
                         Lit " has not been used yet."])
  else
    '(ses_key, resp) ← send_auth "unseal" cvc {[ "slot" := target ]};
    privkey ← lift (dict_item resp "privkey");
    pk ← lift (xor_bytes ses_key privkey);
    ret (pk, target).

(** [get_slot_usage(self, slot, cvc=None)]; the result is the triple
    [(addr, status, here)]. *)
Definition get_slot_usage (slot cvc : Val) : M Ext (Val * string * Args) :=
  is_tapsigner ← get_attr "is_tapsigner";
  assert_ (negb (truthy is_tapsigner)) [];;
  '(session_key, here) ← send_auth "dump" cvc {[ "slot" := slot ]};
  let addr := dict_get here "addr" VNone in
  '(addr, status) ←
    (if py_eq (dict_get here "sealed" VNone) (VBool true) then
       active ← get_attr "active_slot";
       addr ← (if py_eq slot active then address true false VNone
               else ret addr);
       ret (addr, "sealed")
     else if py_eq (dict_get here "sealed" VNone) (VBool false)
             || has_key here "privkey" then
       addr ← (if has_key here "privkey" then
                 privkey ← lift (dict_item here "privkey");
                 pk ← lift (xor_bytes session_key privkey);
                 testnet ← get_attr "is_testnet";
                 lift (render_address pk testnet)
               else ret addr);
       ret (addr, "UNSEALED")
     else if py_eq (dict_get here "used" VNone) (VBool false) then
       ret (addr, "unused")
     else raise (ValueError [Repr here]));
  let addr := if truthy addr then addr else dict_get here "addr" VNone in
  ret (addr, status, here).

End Engine.

(* --------------------------------------------------------------------- *)
(*  The slot classification of the specification                         *)
(* --------------------------------------------------------------------- *)

(** The three stages of a slot. *)
Inductive SlotStatus : Type := Sealed | Unsealed | Unused.

(** The status string by which [get_slot_usage] reports each stage. *)
Definition status_name (s : SlotStatus) : string :=
  match s with
  | Sealed => "sealed"
  | Unsealed => "UNSEALED"
  | Unused => "unused"
  end.

(** The classification as the specification words it, a function of the
    response map alone: the sealed check first, then an explicit
    [sealed == False] or the presence of a private key for unsealed, then
    the explicit [used == False]; a map that matches none has no class. *)
Definition classify (here : Args) : option SlotStatus :=
  if py_eq (dict_get here "sealed" VNone) (VBool true) then Some Sealed
  else if py_eq (dict_get here "sealed" VNone) (VBool false)
          || has_key here "privkey" then Some Unsealed
  else if py_eq (dict_get here "used" VNone) (VBool false) then Some Unused
  else None.

(** [addr or here.get('addr')], the last step of [get_slot_usage]. *)
Definition addr_or (addr : Val) (here : Args) : Val :=
  if truthy addr then addr else dict_get here "addr" VNone.

(* --------------------------------------------------------------------- *)
(*  What a method may touch                                              *)
(* --------------------------------------------------------------------- *)

(** [w'] comes after [w] when every attribute outside [K] is as it was
    and the commands sent in between all satisfy [C]. *)
Definition evolves {Ext} (K C : string → Prop) (w w' : World Ext) : Prop :=
  (∀ k, ¬ K k → attrs w' !! k = attrs w !! k) ∧
  ∃ l, sent w' = (l ++ sent w)%list ∧ Forall (λ c, C c.1) l.

(** A method that writes attributes in [K] only and sends commands in
    [C] only, whether it returns or raises. *)
Definition keeps {Ext A} (K C : string → Prop) (m : M Ext A) : Prop :=
  ∀ w r w', m w = (r, w') → evolves K C w w'.

(** The attributes that change in the life of a session: the rotating
    nonce and the certificate flag. *)
Definition session_state (k : string) : Prop :=
  k = "card_nonce" ∨ k = "_certs_checked".

(** No restriction on the commands sent. *)
Definition any_cmd (c : string) : Prop := True.

(** The commands [address] sends when the certificate chain is not
    checked again. *)
Definition address_cmd (c : string) : Prop :=
  c = "status" ∨ c = "dump" ∨ c = "read" ∨ c = "derive".

(* --------------------------------------------------------------------- *)
(*  A scripted card                                                      *)
(* --------------------------------------------------------------------- *)

(** A stand-in for the outside world on which the methods can be run: the
    card answers from a script, one prepared response per round trip, and
    the helpers are simple total functions. *)
Module Demo.

Definition key32 : list N := replicate 32 0x5a%N.

Definition nonce16 : list N := replicate 16 0x07%N.

Definition demo_send (cmd : string) (args : Args) (script : list (N * Args))
    : Res (N * Args) * list (N * Args) :=
  match script with
  | r :: script' => (Ok r, script')
  | [] => (Raise (OtherError [Lit "card removed"]), [])
  end.

(** Modelled from the spec: [calc_xcvc] of cktap/utils.py, of which the
    specification says that it takes a secret code of 6 to 32 bytes and
    returns a session key of fixed length with the ephemeral public key
    and the authenticator tag; the cryptography is left out. *)
Definition demo_xcvc (cmd : string) (nonce pubkey cvc : Val)
    (script : list (N * Args)) : Res (Val * Args) * list (N * Args) :=
  match py_len cvc with
  | Ok n =>
      if (6 <=? n) && (n <=? 32)
      then (Ok (VBytes key32,
                {[ "epubkey" := VBytes [2%N; 3%N]; "xcvc" := cvc ]}), script)
      else (Raise (AssertionError []), script)
  | Raise e => (Raise e, script)
  end.

Definition demo_recover (st rr : Args) (n : Val) : Res (Val * Val) :=
  match rr !! "pubkey", st !! "addr" with
  | Some pubkey, Some addr => Ok (pubkey, addr)
  | _, _ => Raise (KeyError "pubkey")
  end.

#[global] Instance demo : Externals (list (N * Args)) := {|
  SW_OKAY := 0x9000%N;
  tr_send := demo_send;
  pick_nonce := λ script, (Ok (VBytes nonce16), script);
  calc_xcvc := demo_xcvc;
  card_pubkey_to_ident := λ pubkey, Ok pubkey;
  force_bytes := λ v, Ok v;
  recover_address := demo_recover;
  verify_master_pubkey := λ master_pubkey sig chain_code n1 n2, Ok master_pubkey;
  verify_derive_address := λ chain_code master_pub testnet, Ok (chain_code, master_pub);
  verify_certs := λ st check certs n, Ok (VStr "factory root");
  render_address := λ pk testnet, Ok pk
|}.

(** A session right after a [first_look] on a SATSCARD. *)
Definition session (nonce : Val) (script : list (N * Args))
    : World (list (N * Args)) :=
  MkWorld {[ "card_nonce" := nonce;
             "card_pubkey" := VBytes [2%N; 9%N];
             "card_ident" := VBytes [2%N; 9%N];
             "applet_version" := VStr "1.0";
             "birth_height" := VNone;
             "is_testnet" := VBool false;
             "auth_delay" := VInt 0;
             "is_tapsigner" := VBool false;
             "active_slot" := VInt 0;
             "num_slots" := VInt 1;
             "_certs_checked" := VBool false ]} script [].

End Demo.

(* --------------------------------------------------------------------- *)
(*  The remaining methods                                                *)
(* --------------------------------------------------------------------- *)

(** The helpers that the TAPSIGNER methods take from cktap/utils.py,
    cktap/compat.py and base58, all outside the sources at hand.
    [b58encode_check_ascii] stands for
    [base58.b58encode_check(x).decode('ascii')]. *)
Class PathHelpers := {
  path2str : Val → Res Val;
  str2path : Val → Res Val;
  all_hardened : Val → Res Val;
  hash160 : Val → Res Val;
  b58encode_check_ascii : Val → Res Val
}.

(** [v[-n:]], the last [n] items of a sequence. *)
Definition slice_last (v : Val) (n : nat) : Res Val :=
  match v with
  | VBytes bs => Ok (VBytes (drop (length bs - n) bs))
  | VStr s =>
      Ok (VStr (String.substring (String.length s - n) n s))
  | VList vs => Ok (VList (drop (length vs - n) vs))
  | VTuple vs => Ok (VTuple (drop (length vs - n) vs))
  | _ => Raise TypeError
  end.

Section Wrappers.
Context {Ext : Type} `{!Externals Ext} `{!PathHelpers}.

(** [CKTapCard(transport)]: a new instance has no attribute but the
    transport, which the model keeps in [ext]; [__init__] ends with
    [first_look]. *)
Definition new_card (transport : Ext) : Res unit * World Ext :=
  first_look (MkWorld ∅ transport []).

(** [get_derivation(self)]. *)
Definition get_derivation : M Ext Val :=
  is_tapsigner ← get_attr "is_tapsigner";
  assert_ (truthy is_tapsigner) [];;
  st ← send "status" true ∅;
  let path := dict_get st "path" VNone in
  match path with
  | VNone => ret VNone
  | _ => lift (path2str path)
  end.

(** [set_derivation(self, path, cvc)]; the result is the triple
    [(len(np), chain_code, pubkey)]. *)
Definition set_derivation (path cvc : Val) : M Ext (Z * Val * Val) :=
  is_tapsigner ← get_attr "is_tapsigner";
  assert_ (truthy is_tapsigner) [];;
  np ← lift (str2path path);
  hardened ← lift (all_hardened np);
  if negb (truthy hardened)
  then raise (ValueError [Lit "All path components must be hardened"])
  else
    n ← ext_call pick_nonce;
    '(_, resp) ← send_auth "derive" cvc {[ "path" := np; "nonce" := n ]};
    len ← lift (py_len np);
    chain_code ← lift (dict_item resp "chain_code");
    pubkey ← lift (dict_item resp "pubkey");
    ret (len, chain_code, pubkey).

(** [get_xfp(self, cvc)]. *)
Definition get_xfp (cvc : Val) : M Ext Val :=
  is_tapsigner ← get_attr "is_tapsigner";
  assert_ (truthy is_tapsigner) [];;
  '(_, st) ← send_auth "xpub" cvc {[ "master" := VBool true ]};
  xpub ← lift (dict_item st "xpub");
  tail ← lift (slice_last xpub 33);
  h ← lift (hash160 tail);
  lift (slice_to h 4).

(** [get_xpub(self, cvc, master=False)]. *)
Definition get_xpub (cvc master : Val) : M Ext Val :=
  is_tapsigner ← get_attr "is_tapsigner";
  assert_ (truthy is_tapsigner) [];;
  '(_, st) ← send_auth "xpub" cvc {[ "master" := master ]};
  xpub ← lift (dict_item st "xpub");
  lift (b58encode_check_ascii xpub).

(** [make_backup(self, cvc)]. *)
Definition make_backup (cvc : Val) : M Ext Val :=
  is_tapsigner ← get_attr "is_tapsigner";
  assert_ (truthy is_tapsigner) [];;
  '(_, st) ← send_auth "backup" cvc ∅;
  lift (dict_item st "data").

(** [get_status(self)]. *)
Definition get_status : M Ext Args := send "status" true ∅.

(** [get_nfc_url(self)]. *)
Definition get_nfc_url : M Ext Val :=
  resp ← send "nfc" true ∅;
  ret (dict_get resp "url" VNone).

(** [get_privkey(self, cvc, slot)]. *)
Definition get_privkey (cvc slot : Val) : M Ext Val :=
  is_tapsigner ← get_attr "is_tapsigner";
  assert_ (negb (truthy is_tapsigner)) [];;
  '(ses_key, resp) ← send_auth "dump" cvc {[ "slot" := slot ]};
  if negb (has_key resp "privkey") then
    if py_eq (dict_get resp "used" VNone) (VBool false) then
      raise (RuntimeError [Lit "That slot ("; Fmt slot;
                           Lit ") is not yet used (no key yet)"])
    else if py_eq (dict_get resp "sealed" VNone) (VBool true) then
      raise (RuntimeError [Lit "That slot ("; Fmt slot;
                           Lit ") is not yet unsealed."])
    else
      raise (RuntimeError [Lit "Not sure of the key for that slot (";
                           Fmt slot; Lit ")."])
  else
    privkey ← lift (dict_item resp "privkey");
    lift (xor_bytes ses_key privkey).

End Wrappers.

(** The attributes a [first_look] assigns. *)
Definition session_attributes : list string :=
  ["card_pubkey"; "card_ident"; "applet_version"; "birth_height";
   "is_testnet"; "auth_delay"; "is_tapsigner"; "active_slot"; "num_slots";
   "card_nonce"; "_certs_checked"].

(** The commands a faster [address] may send. *)
Definition faster_cmd (c : string) : Prop :=
  c = "status" ∨ c = "dump" ∨ c = "read".

(** Stand-ins for the path helpers, for running the TAPSIGNER methods on
    the scripted card: a path is a list of integers and hardened means
    bit 31 is set. *)
Module DemoPaths.

Definition demo_hardened (path : Val) : Res Val :=
  match path with
  | VList vs =>
      Ok (VBool (forallb (λ v, match v with
                               | VInt z => Z.testbit z 31
                               | _ => false
                               end) vs))
  | _ => Raise TypeError
  end.

#[global] Instance demo_paths : PathHelpers := {|
  path2str := λ path, Ok (VStr "m");
  str2path := λ path, match path with
                      | VList _ => Ok path
                      | _ => Raise (ValueError [Lit "bad path"])
                      end;
  all_hardened := demo_hardened;
  hash160 := λ v, Ok v;
  b58encode_check_ascii := λ v, Ok (VStr "xpub")
|}.

(** A session right after a [first_look] on a TAPSIGNER. *)
Definition tapsigner (script : list (N * Args)) : World (list (N * Args)) :=
  MkWorld (<["is_tapsigner" := VBool true]>
             (attrs (Demo.session (VBytes Demo.nonce16) script)))
          script [].

End DemoPaths.

(** The attributes of a session after a [first_look], the assignments in
    the order of the source. *)
Definition looked (st : Args) (pubkey ident ver active num : Val)
    (a : gmap string Val) : gmap string Val :=
  <["_certs_checked" := VBool false]>
    (<["num_slots" := num]>
      (<["active_slot" := active]>
        (<["is_tapsigner" := dict_get st "tapsigner" (VBool false)]>
          (<["auth_delay" := dict_get st "auth_delay" (VInt 0)]>
            (<["is_testnet" := dict_get st "testnet" (VBool false)]>
              (<["birth_height" := dict_get st "birth" VNone]>
                (<["applet_version" := ver]>
                  (<["card_ident" := ident]>
                    (<["card_pubkey" := pubkey]> a))))))))).

(** A status response with nothing but the entries [first_look] needs and
    a nonce, and a card that answers with it. *)
Definition minimal_status : Args :=
  {[ "proto" := VInt 1; "ver" := VStr "1.0.3";
     "pubkey" := VBytes [2%N; 9%N]; "card_nonce" := VBytes Demo.nonce16 ]}.

Definition fresh_card : World (list (N * Args)) :=
  MkWorld ∅ [(0x9000%N, minimal_status)] [].

(** The nonce is the only attribute that may change. *)
Definition nonce_only (k : string) : Prop := k = "card_nonce".

(** The scripted card again, with a verification layer that finds no
    trusted root in any chain. *)
Definition untrusted : Externals (list (N * Args)) := {|
  SW_OKAY := 0x9000%N;
  tr_send := Demo.demo_send;
  pick_nonce := λ script, (Ok (VBytes Demo.nonce16), script);
  calc_xcvc := Demo.demo_xcvc;
  card_pubkey_to_ident := λ pubkey, Ok pubkey;
  force_bytes := λ v, Ok v;
  recover_address := Demo.demo_recover;
  verify_master_pubkey := λ master_pubkey sig chain_code n1 n2,
    Raise (ValueError [Lit "bad signature"]);
  verify_derive_address := λ chain_code master_pub testnet,
    Ok (chain_code, master_pub);
  verify_certs := λ st check certs n,
    Raise (ValueError [Lit "untrusted root"]);
  render_address := λ pk testnet, Ok pk
|}.

(** Modelled from the spec: the length check of [calc_xcvc], the session
    authenticator of cktap/utils.py.  The specification gives its input
    as a secret code of 6 to 32 bytes and counts an invalid secret-code
    length among the precondition violations that fail immediately: a
    code of another length is refused with an exception, and nothing is
    drawn from the outside world. *)
Definition authenticator_checks_length {Ext : Type} `{!Externals Ext} : Prop :=
  ∀ cmd nonce pubkey cvc (e : Ext) n,
    py_len cvc = Ok n → ¬ (6 ≤ n ≤ 32) →
    ∃ x, calc_xcvc cmd nonce pubkey cvc e = (Raise x, e).

(** [if slot is None: slot = cur_slot]. *)
Definition asked_slot (slot cur_slot : Val) : Val :=
  match slot with VNone => cur_slot | _ => slot end.

Section AddressParts.
Context {Ext : Type} `{!Externals Ext}.

(** The entry of [address] is passed: the card is a SATSCARD, and the
    certificate chain was checked before or, when the flag is unset and
    the mode is not the faster one, is checked now, leaving world [w0]. *)
Definition check_done (faster : bool) (w w0 : World Ext) : Prop :=
  ∃ ts ck,
    attrs w !! "is_tapsigner" = Some ts ∧ truthy ts = false ∧
    attrs w !! "_certs_checked" = Some ck ∧
    if negb (truthy ck) && negb faster
    then ∃ rv, certificate_check w = (Ok rv, w0)
    else w0 = w.

(** The second, independent derivation of [address] went through in the
    world [w3] left by the 'read' command and confirmed [addr], leaving
    world [w5]: a fresh nonce, the nonce of the card before the command,
    the 'derive' response, the master public key verified against the
    signature over both nonces, and the address derived from chain code
    and master public key, equal to [addr]. *)
Definition second_derivation (addr : Val) (w3 w5 : World Ext) : Prop :=
  ∃ my_nonce e4 card_nonce rr master_pubkey sig chain_code master_pub testnet
    derived x,
    pick_nonce (ext w3) = (Ok my_nonce, e4) ∧
    attrs w3 !! "card_nonce" = Some card_nonce ∧
    send "derive" true {[ "nonce" := my_nonce ]}
         (MkWorld (attrs w3) e4 (sent w3)) = (Ok rr, w5) ∧
    rr !! "master_pubkey" = Some master_pubkey ∧
    rr !! "sig" = Some sig ∧
    rr !! "chain_code" = Some chain_code ∧
    verify_master_pubkey master_pubkey sig chain_code my_nonce card_nonce
      = Ok master_pub ∧
    attrs w5 !! "is_testnet" = Some testnet ∧
    verify_derive_address chain_code master_pub testnet = Ok (derived, x) ∧
    py_eq derived addr = true.

(** [address] from the test of 'addr' on (lines 124 to 158), with the
    status response [st], the current slot and the slot asked for at
    hand; named apart so that statements can speak of it. *)
Definition address_for_slot (faster incl_pubkey : bool) (st : Args)
    (cur_slot slot : Val) : M Ext Val :=
  if negb (has_key st "addr") && py_eq cur_slot slot then ret VNone
  else if negb (py_eq slot cur_slot) then
    rr ← send "dump" true {[ "slot" := slot ]};
    assert_ (negb incl_pubkey) [Lit "can only get pubkey on current slot"];;
    lift (dict_item rr "addr")
  else
    n ← ext_call pick_nonce;
    rr ← send "read" true {[ "nonce" := n ]};
    '(pubkey, addr) ← lift (recover_address st rr n);
    (if negb faster then
       my_nonce ← ext_call pick_nonce;
       card_nonce ← get_attr "card_nonce";
       rr ← send "derive" true {[ "nonce" := my_nonce ]};
       master_pubkey ← lift (dict_item rr "master_pubkey");
       sig ← lift (dict_item rr "sig");
       chain_code ← lift (dict_item rr "chain_code");
       master_pub ← lift (verify_master_pubkey master_pubkey sig chain_code
                                                my_nonce card_nonce);
       chain_code ← lift (dict_item rr "chain_code");
       testnet ← get_attr "is_testnet";
       '(derived_addr, _) ← lift (verify_derive_address chain_code master_pub
                                                          testnet);
       if negb (py_eq derived_addr addr)
       then raise (ValueError [Lit "card did not derive address as expected"])
       else ret tt
     else ret tt);;
    if incl_pubkey then ret (VTuple [pubkey; addr]) else ret addr.

End AddressParts.

(* ===================================================================== *)
(*  Properties                                                           *)
(* ===================================================================== *)

(* --------------------------------------------------------------------- *)
(*  Running a method                                                     *)
(* --------------------------------------------------------------------- *)

Section Running.
Context {Ext : Type}.

Lemma run_bind {A B} (m : M Ext A) (k : A → M Ext B) (w : World Ext) :
  (m ≫= k) w = match m w with
               | (Ok a, w') => k a w'
               | (Raise e, w') => (Raise e, w')
               end.
Proof. reflexivity. Qed.

Lemma run_bind_ok {A B} (m : M Ext A) (k : A → M Ext B) w a w' :
  m w = (Ok a, w') → (m ≫= k) w = k a w'.
Proof. intros H. rewrite run_bind, H. reflexivity. Qed.

Lemma run_bind_raise {A B} (m : M Ext A) (k : A → M Ext B) w e w' :
  m w = (Raise e, w') → (m ≫= k) w = (Raise e, w').
Proof. intros H. rewrite run_bind, H. reflexivity. Qed.

Lemma run_get_attr name v (w : World Ext) :
  attrs w !! name = Some v → get_attr name w = (Ok v, w).
Proof. intros H. unfold get_attr. rewrite H. reflexivity. Qed.

End Running.

(** Closes an equation between closed terms by evaluation. *)
Ltac by_evaluation :=
  lazymatch goal with
  | |- ?a = _ => vm_cast_no_check (@eq_refl _ a)
  end.

Lemma has_key_true (d : Args) k : has_key d k = true ↔ is_Some (d !! k).
Proof. unfold has_key. apply bool_decide_eq_true. Qed.

Lemma has_key_false (d : Args) k : has_key d k = false ↔ d !! k = None.
Proof.
  unfold has_key. rewrite bool_decide_eq_false, <- eq_None_not_Some. tauto.
Qed.

Section SendFacts.
Context {Ext : Type} `{!Externals Ext}.

(** Promotion touches the keys 'error' and 'stat_word' only. *)
Lemma promote_lookup_other sw (resp : Args) k :
  k ≠ "error" → k ≠ "stat_word" → promote sw resp !! k = resp !! k.
Proof.
  intros He Hs. unfold promote.
  destruct (negb (sw =? SW_OKAY)%N); [|reflexivity].
  rewrite lookup_insert_ne by congruence.
  destruct (negb (has_key resp "error")); [|reflexivity].
  rewrite lookup_insert_ne by congruence. reflexivity.
Qed.

Lemma send_run cmd roe args (w : World Ext) sw resp e' :
  tr_send cmd args (ext w) = (Ok (sw, resp), e') →
  send cmd roe args w =
    (match promote sw resp !! "error" with
     | Some msg =>
         if roe then
           Raise (CardRuntimeError
                    [Fmt (dict_get (promote sw resp) "code" (VInt 500));
                     Lit " on "; Lit cmd; Lit ": "; Fmt msg]
                    (dict_get (promote sw resp) "code" (VInt 500)) msg)
         else Ok (promote sw resp)
     | None => Ok (promote sw resp)
     end, after_send cmd args w sw resp e').
Proof.
  intros Htr. unfold send, after_send. rewrite run_bind.
  unfold transport at 1. rewrite Htr. rewrite run_bind.
  rewrite (promote_lookup_other sw resp "card_nonce") by discriminate.
  assert (Hcode : dict_get (delete "error" (promote sw resp)) "code" (VInt 500)
                  = dict_get (promote sw resp) "code" (VInt 500)).
  { unfold dict_get. rewrite lookup_delete_ne by discriminate. reflexivity. }
  destruct (resp !! "card_nonce") as [n|]; cbn;
    destruct (promote sw resp !! "error") as [msg|]; try reflexivity;
    destruct roe; try reflexivity; cbn; rewrite Hcode; reflexivity.
Qed.

Lemma send_run_raise cmd roe args (w : World Ext) e e' :
  tr_send cmd args (ext w) = (Raise e, e') →
  send cmd roe args w = (Raise e, MkWorld (attrs w) e' ((cmd, args) :: sent w)).
Proof.
  intros Htr. unfold send. rewrite run_bind.
  unfold transport at 1. rewrite Htr. reflexivity.
Qed.

End SendFacts.

Section SendClaims.
Context {Ext : Type} `{!Externals Ext}.

(** C1.  Whenever the response to a command carries 'card_nonce', the
    session's tracked nonce is exactly that value once [send] is over,
    with [raise_on_error] set or not and whether [send] returns or
    raises: the nonce is stored before the error is looked at, and the
    world that a raising [send] leaves is the one with the new nonce. *)
Theorem send_tracks_card_nonce cmd roe args (w : World Ext) sw resp e' n :
  tr_send cmd args (ext w) = (Ok (sw, resp), e') →
  resp !! "card_nonce" = Some n →
  attrs (send cmd roe args w).2 !! "card_nonce" = Some n ∧
  (send cmd roe args w).2
    = MkWorld (<["card_nonce" := n]> (attrs w)) e' ((cmd, args) :: sent w).
Proof.
  intros Htr Hn. rewrite (send_run _ _ _ _ _ _ _ Htr). cbn.
  unfold after_send. rewrite Hn. cbn. split; [|reflexivity].
  apply lookup_insert_eq.
Qed.

(** C2.  With [raise_on_error] left at its default, a status word other
    than [SW_OKAY] always makes [send] fail: the result map then has an
    'error' entry (the card's own if there is one, a synthesized
    description otherwise) and the raw status word under 'stat_word'.
    Every response with an 'error' entry, promoted or sent by the card,
    raises the one structured error, built from the command name, the
    'code' entry or 500 when there is none, and the message.  With
    [raise_on_error] false the result map is returned instead, carrying
    the same annotations. *)
Theorem send_error_handling cmd args (w : World Ext) sw resp e' :
  tr_send cmd args (ext w) = (Ok (sw, resp), e') →
  let result := promote sw resp in
  (sw ≠ SW_OKAY →
     result !! "stat_word" = Some (VInt (Z.of_N sw)) ∧
     result !! "error"
       = Some (default (VStr ("Got error SW value: 0x" ++ hex04 sw))
                       (resp !! "error")) ∧
     ∃ text code msg,
       (send cmd true args w).1 = Raise (CardRuntimeError text code msg)) ∧
  (sw = SW_OKAY → result = resp) ∧
  (∀ msg, result !! "error" = Some msg →
     (send cmd true args w).1
       = Raise (CardRuntimeError
                  [Fmt (dict_get result "code" (VInt 500)); Lit " on ";
                   Lit cmd; Lit ": "; Fmt msg]
                  (dict_get result "code" (VInt 500)) msg)) ∧
  (result !! "error" = None → (send cmd true args w).1 = Ok result) ∧
  (send cmd false args w).1 = Ok result.
Proof.
  intros Htr result.
  rewrite !(send_run _ _ _ _ _ _ _ Htr). fold result. cbn.
  assert (Hbad : sw ≠ SW_OKAY →
            result !! "stat_word" = Some (VInt (Z.of_N sw)) ∧
            result !! "error"
              = Some (default (VStr ("Got error SW value: 0x" ++ hex04 sw))
                              (resp !! "error"))).
  { intros Hsw. unfold result, promote.
    apply N.eqb_neq in Hsw. rewrite Hsw. cbn.
    rewrite lookup_insert_eq, lookup_insert_ne by discriminate.
    split; [reflexivity|].
    destruct (has_key resp "error") eqn:Hk; cbn.
    - apply has_key_true in Hk as [m Hm]. rewrite Hm. reflexivity.
    - apply has_key_false in Hk. rewrite Hk, lookup_insert_eq. reflexivity. }
  repeat split.
  - apply Hbad, H.
  - apply Hbad, H.
  - destruct (Hbad H) as [_ ->]. eauto.
  - intros ->. unfold result, promote. rewrite N.eqb_refl. reflexivity.
  - intros msg ->. reflexivity.
  - intros ->. reflexivity.
  - destruct (result !! "error"); reflexivity.
Qed.

End SendClaims.

(** C1 on the scripted card: an error response (status word 0x6a80, with
    an 'error' field) that carries a nonce. *)
Lemma send_tracks_card_nonce_witness :
  let w := Demo.session (VBytes [1%N])
             [(0x6a80%N, {[ "error" := VStr "bad CVC"; "code" := VInt 401;
                            "card_nonce" := VBytes [8%N; 8%N] ]})] in
  (send "unseal" true ∅ w).1
    = Raise (CardRuntimeError
               [Fmt (VInt 401); Lit " on "; Lit "unseal"; Lit ": ";
                Fmt (VStr "bad CVC")] (VInt 401) (VStr "bad CVC")) ∧
  attrs (send "unseal" true ∅ w).2 !! "card_nonce" = Some (VBytes [8%N; 8%N]).
Proof.
  intros w. split; [vm_compute; reflexivity|].
  eapply (send_tracks_card_nonce "unseal" true ∅ w).
  - reflexivity.
  - vm_compute. reflexivity.
Defined.

(** C2 on the scripted card: a bare status word 0x6d00 without any
    'error' entry is promoted and raised with the generic code; the same
    response is handed back when errors are not to be raised. *)
Lemma send_error_handling_witness :
  let w := Demo.session (VBytes [1%N]) [(0x6d00%N, ∅)] in
  (send "nfc" true ∅ w).1
    = Raise (CardRuntimeError
               [Fmt (VInt 500); Lit " on "; Lit "nfc"; Lit ": ";
                Fmt (VStr "Got error SW value: 0x6d00")]
               (VInt 500) (VStr "Got error SW value: 0x6d00")) ∧
  (send "nfc" false ∅ w).1
    = Ok {[ "error" := VStr "Got error SW value: 0x6d00";
            "stat_word" := VInt 0x6d00 ]}.
Proof.
  intros w.
  pose proof (send_error_handling "nfc" ∅ w 0x6d00%N ∅ [] eq_refl)
    as (_ & _ & Hraise & _ & Hraw).
  split.
  - rewrite (Hraise (VStr "Got error SW value: 0x6d00")); reflexivity.
  - rewrite Hraw. vm_compute. reflexivity.
Defined.

Section SendAuthClaims.
Context {Ext : Type} `{!Externals Ext}.

Lemma send_sent cmd roe args (w : World Ext) :
  sent (send cmd roe args w).2 = (cmd, args) :: sent w.
Proof.
  destruct (tr_send cmd args (ext w)) as [[[sw resp]|e] e'] eqn:Htr.
  - rewrite (send_run _ _ _ _ _ _ _ Htr). reflexivity.
  - rewrite (send_run_raise _ _ _ _ _ _ Htr). reflexivity.
Qed.

Lemma send_kw_plain cmd args :
  kw_plain args → send_kw cmd args = send cmd true args.
Proof.
  intros (Hs & Hc & Hr). unfold send_kw.
  apply has_key_false in Hs, Hc. rewrite Hs, Hc, Hr, delete_id by done.
  reflexivity.
Qed.

Lemma transmits_send_then {A} cmd args (k : Args → M Ext A)
    (w w1 : World Ext) (m : M Ext A) :
  m w = (send cmd true args ≫= k) w1 →
  sent w1 = sent w →
  (∀ r w', sent (k r w').2 = sent w') →
  transmits m w cmd args.
Proof.
  intros Hm Hs Hk. unfold transmits. rewrite Hm, run_bind.
  pose proof (send_sent cmd true args w1) as Hsent.
  destruct (send cmd true args w1) as [[r|e] w']; cbn in *.
  - rewrite Hk, Hsent, Hs. reflexivity.
  - rewrite Hsent, Hs. reflexivity.
Qed.

Lemma send_auth_keyed cmd cvc args (w : World Ext) nonce pubkey sk auth e' :
  truthy cvc = true →
  attrs w !! "card_nonce" = Some nonce →
  attrs w !! "card_pubkey" = Some pubkey →
  calc_xcvc cmd nonce pubkey cvc (ext w) = (Ok (sk, auth), e') →
  send_auth cmd cvc args w =
    (args' ←
       (if bool_decide (cmd = "sign") then
          digest ← lift (dict_item (auth ∪ args) "digest");
          masked ← lift (xor_bytes digest sk);
          mret (<["digest" := masked]> (auth ∪ args))
        else if bool_decide (cmd = "change") then
          data ← lift (dict_item (auth ∪ args) "data");
          data' ← lift (dict_item (auth ∪ args) "data");
          n ← lift (py_len data');
          key ← lift (slice_to sk n);
          masked ← lift (xor_bytes data key);
          mret (<["data" := masked]> (auth ∪ args))
        else mret (auth ∪ args));
     resp ← send_kw cmd args';
     mret (sk, resp)) (MkWorld (attrs w) e' (sent w)).
Proof.
  intros Ht Hn Hp Hx. unfold send_auth. rewrite Ht.
  rewrite run_bind, run_bind, (run_get_attr _ _ _ Hn).
  rewrite run_bind, (run_get_attr _ _ _ Hp).
  rewrite run_bind. unfold ext_call at 1. rewrite Hx. reflexivity.
Qed.

Lemma kw_plain_insert k v (a : Args) :
  k ≠ "self" → k ≠ "cmd" → k ≠ "raise_on_error" →
  kw_plain a → kw_plain (<[k := v]> a).
Proof.
  intros H1 H2 H3 (Hs & Hc & Hr). unfold kw_plain.
  rewrite !lookup_insert_ne by congruence. auto.
Qed.

Lemma run_dict_item (d : Args) k v (w : World Ext) :
  d !! k = Some v → lift (dict_item d k) w = (Ok v, w).
Proof. intros H. unfold lift, dict_item. rewrite H. reflexivity. Qed.

Lemma xor_bytes_bytes (x y : list N) :
  length x = length y →
  xor_bytes (VBytes x) (VBytes y) = Ok (VBytes (zip_with N.lxor x y)).
Proof. intros H. unfold xor_bytes. rewrite H, Nat.eqb_refl. reflexivity. Qed.


(** C10.  Without a secret code ([cvc] is [None] or empty) the session
    key is [None], and 'sign' and 'change' called with the argument they
    mask end in a [TypeError] raised in the masking step; nothing has
    been handed to the transport and the session is as it was.  The
    unauthenticated path is closed for these two commands whatever the
    arguments: a call without the masked argument fails at the lookup
    of that argument, again before anything is transmitted. *)
Theorem send_auth_masked_needs_cvc cmd cvc args (w : World Ext) :
  truthy cvc = false →
  (cmd = "sign" → ∀ d, args !! "digest" = Some d →
     send_auth cmd cvc args w = (Raise TypeError, w)) ∧
  (cmd = "change" → ∀ d, args !! "data" = Some d →
     send_auth cmd cvc args w = (Raise TypeError, w)) ∧
  (cmd = "sign" ∨ cmd = "change" →
     ∃ e, send_auth cmd cvc args w = (Raise e, w)).
Proof.
  intros Ht.
  assert (Hstart : send_auth cmd cvc args w =
            ((if bool_decide (cmd = "sign") then
                digest ← lift (dict_item args "digest");
                masked ← lift (xor_bytes digest VNone);
                mret (<["digest" := masked]> args)
              else if bool_decide (cmd = "change") then
                data ← lift (dict_item args "data");
                data' ← lift (dict_item args "data");
                n ← lift (py_len data');
                key ← lift (slice_to VNone n);
                masked ← lift (xor_bytes data key);
                mret (<["data" := masked]> args)
              else mret args) ≫= λ args',
             resp ← send_kw cmd args'; mret (VNone, resp)) w).
  { unfold send_auth. rewrite Ht. reflexivity. }
  assert (Hsign : cmd = "sign" →
            send_auth cmd cvc args w
            = (Raise match args !! "digest" with
                     | Some _ => TypeError
                     | None => KeyError "digest"
                     end, w)).
  { intros ->. rewrite Hstart, bool_decide_eq_true_2 by reflexivity.
    rewrite !run_bind. unfold lift, dict_item.
    destruct (args !! "digest") as [[]|]; reflexivity. }
  assert (Hchange : cmd = "change" →
            send_auth cmd cvc args w
            = (Raise match args !! "data" with
                     | Some _ => TypeError
                     | None => KeyError "data"
                     end, w)).
  { intros ->.
    rewrite Hstart, bool_decide_eq_false_2, bool_decide_eq_true_2 by done.
    rewrite !run_bind. unfold lift, dict_item.
    destruct (args !! "data") as [[]|]; reflexivity. }
  repeat split.
  - intros Hc d Hd. rewrite (Hsign Hc), Hd. reflexivity.
  - intros Hc d Hd. rewrite (Hchange Hc), Hd. reflexivity.
  - intros [Hc | Hc]; [rewrite (Hsign Hc) | rewrite (Hchange Hc)]; eauto.
Qed.

End SendAuthClaims.


(** C10 on the scripted card: 'sign' and 'change' without a secret code
    stop with a [TypeError]; the script is untouched and nothing was
    sent. *)
Lemma send_auth_masked_needs_cvc_witness :
  let w := Demo.session (VBytes Demo.nonce16) [(0x9000%N, ∅)] in
  send_auth "sign" VNone {[ "digest" := VBytes (replicate 32 0xff%N) ]} w
    = (Raise TypeError, w) ∧
  send_auth "change" (VBytes []) {[ "data" := VBytes (replicate 6 0x30%N) ]} w
    = (Raise TypeError, w).
Proof.
  intros w. split.
  - exact (proj1 (send_auth_masked_needs_cvc "sign" VNone
                    {[ "digest" := VBytes (replicate 32 0xff%N) ]} w eq_refl)
             eq_refl (VBytes (replicate 32 0xff%N)) eq_refl).
  - exact (proj1 (proj2 (send_auth_masked_needs_cvc "change" (VBytes [])
                           {[ "data" := VBytes (replicate 6 0x30%N) ]} w
                           eq_refl))
             eq_refl (VBytes (replicate 6 0x30%N)) eq_refl).
Defined.


Section SlotClaims.
Context {Ext : Type} `{!Externals Ext}.

Lemma py_eq_true_not_false v :
  py_eq v (VBool true) = true → py_eq v (VBool false) = false.
Proof.
  destruct v as [|b|z| | | |]; cbn; try discriminate.
  - destruct b; cbn; congruence.
  - intros H%Z.eqb_eq. subst z. reflexivity.
Qed.

Lemma run_assert_not_tapsigner {A} (k : M Ext A) (w : World Ext) v :
  attrs w !! "is_tapsigner" = Some v → truthy v = false →
  (is_tapsigner ← get_attr "is_tapsigner";
   assert_ (negb (truthy is_tapsigner)) [];; k) w = k w.
Proof.
  intros Ha Ht. rewrite run_bind, (run_get_attr _ _ _ Ha).
  rewrite run_bind, Ht. reflexivity.
Qed.

(** C4.  [unseal_slot] asks for the dump of the active slot and of no
    other.  If the dump has [sealed == False] it raises the 'already
    unsealed' error, and if [sealed] is neither that nor [True] it raises
    the 'not used yet' error, a different one; in both cases the dump is
    the only command that went to the card, so the authenticated 'unseal'
    was never sent.  If the slot is sealed, 'unseal' is sent for the same
    slot, and when it succeeds the result is the returned 'privkey' XORed
    with the session key, paired with the index of the active slot. *)
Theorem unseal_slot_cases cvc (w w1 : World Ext) is_ts target resp :
  attrs w !! "is_tapsigner" = Some is_ts → truthy is_ts = false →
  attrs w !! "active_slot" = Some target →
  send "dump" true {[ "slot" := target ]} w = (Ok resp, w1) →
  let sealed := dict_get resp "sealed" VNone in
  let already := RuntimeError [Lit "Slot "; Fmt target;
                               Lit " has already been unsealed."] in
  let unused := RuntimeError [Lit "Slot "; Fmt target;
                              Lit " has not been used yet."] in
  sent w1 = ("dump", {[ "slot" := target ]}) :: sent w ∧
  already ≠ unused ∧
  (py_eq sealed (VBool false) = true →
     unseal_slot cvc w = (Raise already, w1)) ∧
  (py_eq sealed (VBool false) = false → py_eq sealed (VBool true) = false →
     unseal_slot cvc w = (Raise unused, w1)) ∧
  (py_eq sealed (VBool true) = true →
     ∀ ses_key resp' w2 privkey pk,
       send_auth "unseal" cvc {[ "slot" := target ]} w1
         = (Ok (ses_key, resp'), w2) →
       resp' !! "privkey" = Some privkey →
       xor_bytes ses_key privkey = Ok pk →
       unseal_slot cvc w = (Ok (pk, target), w2)).
Proof.
  intros Hts Hnot Hact Hdump sealed already unused.
  assert (Hrun : unseal_slot cvc w =
            (if py_eq sealed (VBool false) then raise already
             else if negb (py_eq sealed (VBool true)) then raise unused
             else
               '(ses_key, resp) ← send_auth "unseal" cvc {[ "slot" := target ]};
               privkey ← lift (dict_item resp "privkey");
               pk ← lift (xor_bytes ses_key privkey);
               mret (pk, target)) w1).
  { unfold unseal_slot. rewrite (run_assert_not_tapsigner _ _ _ Hts Hnot).
    rewrite run_bind, (run_get_attr _ _ _ Hact).
    rewrite run_bind, Hdump. reflexivity. }
  split; [|split; [|split; [|split]]].
  - pose proof (send_sent "dump" true {[ "slot" := target ]} w) as Hs.
    rewrite Hdump in Hs. exact Hs.
  - discriminate.
  - intros Hf. rewrite Hrun, Hf. reflexivity.
  - intros Hf Hu. rewrite Hrun, Hf, Hu. reflexivity.
  - intros Hu ses_key resp' w2 privkey pk Hauth Hpriv Hxor.
    rewrite Hrun, (py_eq_true_not_false _ Hu), Hu. cbn [negb].
    rewrite run_bind, Hauth. cbn beta iota.
    rewrite run_bind, (run_dict_item _ _ _ _ Hpriv).
    rewrite run_bind. unfold lift at 1. rewrite Hxor. reflexivity.
Qed.

End SlotClaims.

(** C4 on the scripted card.  A sealed active slot 0 is unsealed with the
    code 123456: the masked key [ff..ff] comes back XORed with the session
    key [5a..5a].  A slot whose dump says [sealed: False] is refused with
    the 'already unsealed' error. *)
Lemma unseal_slot_cases_witness :
  let cvc := VBytes [49; 50; 51; 52; 53; 54]%N in
  let w := Demo.session (VBytes Demo.nonce16)
             [(0x9000%N, {[ "sealed" := VBool true ]});
              (0x9000%N, {[ "privkey" := VBytes (replicate 32 0xff%N) ]})] in
  let w' := Demo.session (VBytes Demo.nonce16)
              [(0x9000%N, {[ "sealed" := VBool false ]})] in
  (unseal_slot cvc w).1 = Ok (VBytes (replicate 32 0xa5%N), VInt 0) ∧
  (unseal_slot cvc w').1
    = Raise (RuntimeError [Lit "Slot "; Fmt (VInt 0);
                           Lit " has already been unsealed."]).
Proof.
  intros cvc w w'.
  pose (dump := send "dump" true {[ "slot" := VInt 0 ]}).
  split.
  - pose proof (unseal_slot_cases cvc w (dump w).2 (VBool false) (VInt 0)
                  {[ "sealed" := VBool true ]}
                  eq_refl eq_refl eq_refl eq_refl)
      as (_ & _ & _ & _ & Hok).
    exact (f_equal fst
             (Hok eq_refl (VBytes Demo.key32)
                  {[ "privkey" := VBytes (replicate 32 0xff%N) ]}
                  (send_auth "unseal" cvc {[ "slot" := VInt 0 ]} (dump w).2).2
                  (VBytes (replicate 32 0xff%N))
                  (VBytes (replicate 32 0xa5%N))
                  eq_refl eq_refl eq_refl)).
  - pose proof (unseal_slot_cases cvc w' (dump w').2 (VBool false) (VInt 0)
                  {[ "sealed" := VBool false ]}
                  eq_refl eq_refl eq_refl eq_refl)
      as (_ & _ & Halready & _ & _).
    exact (f_equal fst (Halready eq_refl)).
Defined.


Section ClassificationClaims.
Context {Ext : Type} `{!Externals Ext}.

Lemma get_slot_usage_run slot cvc (w w1 : World Ext) is_ts sk here :
  attrs w !! "is_tapsigner" = Some is_ts → truthy is_ts = false →
  send_auth "dump" cvc {[ "slot" := slot ]} w = (Ok (sk, here), w1) →
  get_slot_usage slot cvc w =
    ('(addr, status) ←
       (if py_eq (dict_get here "sealed" VNone) (VBool true) then
          active ← get_attr "active_slot";
          addr ← (if py_eq slot active then address true false VNone
                  else ret (dict_get here "addr" VNone));
          ret (addr, "sealed")
        else if py_eq (dict_get here "sealed" VNone) (VBool false)
                || has_key here "privkey" then
          addr ← (if has_key here "privkey" then
                    privkey ← lift (dict_item here "privkey");
                    pk ← lift (xor_bytes sk privkey);
                    testnet ← get_attr "is_testnet";
                    lift (render_address pk testnet)
                  else ret (dict_get here "addr" VNone));
          ret (addr, "UNSEALED")
        else if py_eq (dict_get here "used" VNone) (VBool false) then
          ret (dict_get here "addr" VNone, "unused")
        else raise (ValueError [Repr here]));
     ret (addr_or addr here, status, here)) w1.
Proof.
  intros Hts Hnot Hdump. unfold get_slot_usage.
  rewrite (run_assert_not_tapsigner _ _ _ Hts Hnot).
  rewrite run_bind, Hdump. reflexivity.
Qed.

Lemma addr_or_same (here : Args) :
  addr_or (dict_get here "addr" VNone) here = dict_get here "addr" VNone.
Proof. unfold addr_or. destruct (truthy _); reflexivity. Qed.

(** C6, as the code has it.  Once the dump of the slot is in,
    [get_slot_usage] decides the status by the response map alone and in
    the order of [classify]: [sealed == True] first, then
    [sealed == False] or a 'privkey' entry for unsealed, then
    [used == False] for unused.  A map with no class raises [ValueError]
    with the map, never a default status.  A map with a class yields the
    status of that class and no other, as soon as the address step of the
    class is done: none for an unused slot, for a sealed slot that is not
    the active one and for an unsealed slot without 'privkey';
    [address(faster=True)] for the sealed active slot; unmasking and
    rendering of the private key for an unsealed slot with 'privkey'.
    When that step raises, its exception is passed on and no status is
    returned. *)
Theorem get_slot_usage_classifies slot cvc (w w1 : World Ext) is_ts sk here :
  attrs w !! "is_tapsigner" = Some is_ts → truthy is_ts = false →
  send_auth "dump" cvc {[ "slot" := slot ]} w = (Ok (sk, here), w1) →
  let addr := dict_get here "addr" VNone in
  get_slot_usage slot cvc w
    = match classify here with
      | None => (Raise (ValueError [Repr here]), w1)
      | Some Unused => (Ok (addr, status_name Unused, here), w1)
      | Some Unsealed =>
          match here !! "privkey" with
          | None => (Ok (addr, status_name Unsealed, here), w1)
          | Some privkey =>
              (match xor_bytes sk privkey with
               | Raise e => Raise e
               | Ok pk =>
                   match attrs w1 !! "is_testnet" with
                   | None => Raise (AttributeError "is_testnet")
                   | Some testnet =>
                       match render_address pk testnet with
                       | Raise e => Raise e
                       | Ok a => Ok (addr_or a here, status_name Unsealed, here)
                       end
                   end
               end, w1)
          end
      | Some Sealed =>
          match attrs w1 !! "active_slot" with
          | None => (Raise (AttributeError "active_slot"), w1)
          | Some active =>
              if py_eq slot active then
                match address true false VNone w1 with
                | (Ok a, w2) =>
                    (Ok (addr_or a here, status_name Sealed, here), w2)
                | (Raise e, w2) => (Raise e, w2)
                end
              else (Ok (addr, status_name Sealed, here), w1)
          end
      end ∧
  (∀ r w', get_slot_usage slot cvc w = (Ok r, w') →
     ∃ s, classify here = Some s ∧ r.1.2 = status_name s ∧ r.2 = here).
Proof.
  intros Hts Hnot Hdump addr.
  assert (Heq : get_slot_usage slot cvc w
    = match classify here with
      | None => (Raise (ValueError [Repr here]), w1)
      | Some Unused => (Ok (addr, status_name Unused, here), w1)
      | Some Unsealed =>
          match here !! "privkey" with
          | None => (Ok (addr, status_name Unsealed, here), w1)
          | Some privkey =>
              (match xor_bytes sk privkey with
               | Raise e => Raise e
               | Ok pk =>
                   match attrs w1 !! "is_testnet" with
                   | None => Raise (AttributeError "is_testnet")
                   | Some testnet =>
                       match render_address pk testnet with
                       | Raise e => Raise e
                       | Ok a => Ok (addr_or a here, status_name Unsealed, here)
                       end
                   end
               end, w1)
          end
      | Some Sealed =>
          match attrs w1 !! "active_slot" with
          | None => (Raise (AttributeError "active_slot"), w1)
          | Some active =>
              if py_eq slot active then
                match address true false VNone w1 with
                | (Ok a, w2) =>
                    (Ok (addr_or a here, status_name Sealed, here), w2)
                | (Raise e, w2) => (Raise e, w2)
                end
              else (Ok (addr, status_name Sealed, here), w1)
          end
      end).
  { rewrite (get_slot_usage_run _ _ _ _ _ _ _ Hts Hnot Hdump).
    unfold classify. fold addr.
    destruct (py_eq (dict_get here "sealed" VNone) (VBool true));
      [|destruct (py_eq (dict_get here "sealed" VNone) (VBool false)
                 || has_key here "privkey");
        [|destruct (py_eq (dict_get here "used" VNone) (VBool false))]].
    - rewrite !run_bind. unfold get_attr.
      destruct (attrs w1 !! "active_slot") as [active|]; [|reflexivity].
      destruct (py_eq slot active); rewrite ?run_bind.
      + destruct (address true false VNone w1) as [[a|e] w2]; reflexivity.
      + cbn -[addr_or]. unfold addr. rewrite addr_or_same. reflexivity.
    - rewrite !run_bind.
      destruct (here !! "privkey") as [privkey|] eqn:Hp.
      + assert (Hk : has_key here "privkey" = true)
          by (apply has_key_true; eauto).
        rewrite Hk.
        unfold mbind, M_bind, bind, mret, M_ret, ret, lift, get_attr,
          dict_item.
        rewrite Hp. cbn -[addr_or].
        destruct (xor_bytes sk privkey) as [pk|]; cbn -[addr_or];
          [|reflexivity].
        destruct (attrs w1 !! "is_testnet") as [testnet|]; cbn -[addr_or];
          [|reflexivity].
        destruct (render_address pk testnet); reflexivity.
      + apply has_key_false in Hp. rewrite Hp. rewrite ?run_bind.
        cbn -[addr_or]. unfold addr. rewrite addr_or_same. reflexivity.
    - rewrite run_bind. cbn -[addr_or].
      unfold addr. rewrite addr_or_same. reflexivity.
    - reflexivity. }
  split; [exact Heq|].
  intros r w' Hrun. rewrite Heq in Hrun.
  destruct (classify here) as [[| |]|]; [| | |discriminate].
  - exists Sealed. split; [reflexivity|].
    destruct (attrs w1 !! "active_slot") as [active|]; [|discriminate].
    destruct (py_eq slot active).
    + destruct (address true false VNone w1) as [[a|e] w2]; [|discriminate].
      injection Hrun as <- <-. done.
    + injection Hrun as <- <-. done.
  - exists Unsealed. split; [reflexivity|].
    destruct (here !! "privkey") as [privkey|].
    + destruct (xor_bytes sk privkey) as [pk|]; [|discriminate].
      destruct (attrs w1 !! "is_testnet") as [testnet|]; [|discriminate].
      destruct (render_address pk testnet); [|discriminate].
      injection Hrun as <- <-. done.
    + injection Hrun as <- <-. done.
  - exists Unused. split; [reflexivity|]. injection Hrun as <- <-. done.
Qed.

End ClassificationClaims.

(** C6 as stated does not hold.  The dump of the active slot says
    [sealed: True], and the card answers the status command of the address
    look-up with an error: the map has the class sealed, but what comes
    back is the error of the card, neither a status nor the [ValueError]
    of an unclassified map.  In the same way a dump that carries 'privkey'
    although no secret code was given has the class unsealed, and the
    call ends in the [TypeError] of the unmasking. *)
Lemma get_slot_usage_fails_after_classifying :
  let sealed : Args := {[ "sealed" := VBool true ]} in
  let w := Demo.session (VBytes Demo.nonce16)
             [(0x9000%N, sealed);
              (0x6a80%N, {[ "error" := VStr "bad state"; "code" := VInt 406 ]})] in
  let keyed : Args := {[ "privkey" := VBytes (replicate 32 0xff%N) ]} in
  let w' := Demo.session (VBytes Demo.nonce16) [(0x9000%N, keyed)] in
  classify sealed = Some Sealed ∧
  (get_slot_usage (VInt 0) VNone w).1
    = Raise (CardRuntimeError
               [Fmt (VInt 406); Lit " on "; Lit "status"; Lit ": ";
                Fmt (VStr "bad state")] (VInt 406) (VStr "bad state")) ∧
  classify keyed = Some Unsealed ∧
  (get_slot_usage (VInt 0) VNone w').1 = Raise TypeError.
Proof.
  cbv zeta. repeat (split; [vm_compute; reflexivity|]). vm_compute. reflexivity.
Qed.

(** C6 as amended, on the scripted card, for slot 1 of a card whose
    active slot is 0 and without a secret code: a dump with [sealed: True]
    is reported as sealed, a dump that says nothing about the slot raises
    [ValueError] with the map, and a dump with [sealed: False] is
    reported with the status string of the code, 'UNSEALED'. *)
Lemma get_slot_usage_classifies_witness :
  let here : Args := {[ "sealed" := VBool true; "addr" := VStr "bc1q" ]} in
  let w := Demo.session (VBytes Demo.nonce16) [(0x9000%N, here)] in
  let w' := Demo.session (VBytes Demo.nonce16)
              [(0x9000%N, {[ "slot" := VInt 1 ]})] in
  let opened : Args := {[ "sealed" := VBool false; "addr" := VStr "bc1q" ]} in
  let w'' := Demo.session (VBytes Demo.nonce16) [(0x9000%N, opened)] in
  (get_slot_usage (VInt 1) VNone w).1 = Ok (VStr "bc1q", "sealed", here) ∧
  (get_slot_usage (VInt 1) VNone w').1
    = Raise (ValueError [Repr {[ "slot" := VInt 1 ]}]) ∧
  (get_slot_usage (VInt 1) VNone w'').1 = Ok (VStr "bc1q", "UNSEALED", opened).
Proof.
  intros here w w' opened w''.
  pose (dump := send_auth "dump" VNone {[ "slot" := VInt 1 ]}).
  assert (H1 : dump w = (Ok (VNone, here), (dump w).2)) by by_evaluation.
  assert (H2 : dump w' = (Ok (VNone, {[ "slot" := VInt 1 ]}), (dump w').2))
    by by_evaluation.
  assert (H3 : dump w'' = (Ok (VNone, opened), (dump w'').2)) by by_evaluation.
  split; [|split].
  - rewrite (proj1 (get_slot_usage_classifies (VInt 1) VNone w (dump w).2
                      (VBool false) VNone here eq_refl eq_refl H1)).
    by_evaluation.
  - rewrite (proj1 (get_slot_usage_classifies (VInt 1) VNone w' (dump w').2
                      (VBool false) VNone {[ "slot" := VInt 1 ]}
                      eq_refl eq_refl H2)).
    by_evaluation.
  - rewrite (proj1 (get_slot_usage_classifies (VInt 1) VNone w'' (dump w'').2
                      (VBool false) VNone opened eq_refl eq_refl H3)).
    by_evaluation.
Defined.


Section Frames.
Context {Ext : Type} (K C : string → Prop).

Lemma evolves_refl (w : World Ext) : evolves K C w w.
Proof. split; [done|]. exists []. split; [done|]. constructor. Qed.

Lemma evolves_trans (w1 w2 w3 : World Ext) :
  evolves K C w1 w2 → evolves K C w2 w3 → evolves K C w1 w3.
Proof.
  intros [Ha (l1 & Hs1 & Hl1)] [Hb (l2 & Hs2 & Hl2)]. split.
  - intros k Hk. rewrite Hb, Ha by done. reflexivity.
  - exists (l2 ++ l1)%list. rewrite Hs2, Hs1, app_assoc. split; [done|].
    apply Forall_app. done.
Qed.

Lemma keeps_ret {A} (a : A) : keeps (Ext:=Ext) K C (ret a).
Proof. intros w r w' [= <- <-]. apply evolves_refl. Qed.

Lemma keeps_mret {A} (a : A) : keeps (Ext:=Ext) K C (mret a).
Proof. apply keeps_ret. Qed.

Lemma keeps_raise {A} e : keeps (Ext:=Ext) (A:=A) K C (raise e).
Proof. intros w r w' [= <- <-]. apply evolves_refl. Qed.

Lemma keeps_lift {A} (x : Res A) : keeps (Ext:=Ext) K C (lift x).
Proof. intros w r w' [= <- <-]. apply evolves_refl. Qed.

Lemma keeps_assert b text : keeps (Ext:=Ext) K C (assert_ b text).
Proof. destruct b; [apply keeps_ret | apply keeps_raise]. Qed.

Lemma keeps_get_attr name : keeps (Ext:=Ext) K C (get_attr name).
Proof.
  intros w r w'. unfold get_attr.
  destruct (attrs w !! name); intros [= <- <-]; apply evolves_refl.
Qed.

Lemma keeps_set_attr name v : K name → keeps (Ext:=Ext) K C (set_attr name v).
Proof.
  intros HK w r w' [= <- <-]. split; cbn.
  - intros k Hk. apply lookup_insert_ne. intros ->. done.
  - exists []. split; [done|]. constructor.
Qed.

Lemma keeps_ext_call {A} (f : Ext → Res A * Ext) :
  keeps (Ext:=Ext) K C (ext_call f).
Proof.
  intros w r w'. unfold ext_call. destruct (f (ext w)) as [r0 e].
  intros [= <- <-]. split; [done|]. exists []. split; [done|]. constructor.
Qed.

Lemma keeps_bind {A B} (m : M Ext A) (k : A → M Ext B) :
  keeps K C m → (∀ a, keeps K C (k a)) → keeps K C (m ≫= k).
Proof.
  intros Hm Hk w r w' Hrun. rewrite run_bind in Hrun.
  destruct (m w) as [[a|e] w1] eqn:Hmw.
  - eapply evolves_trans; [eapply Hm, Hmw | eapply Hk, Hrun].
  - injection Hrun as <- <-. eapply Hm, Hmw.
Qed.

Lemma keeps_send `{!Externals Ext} cmd roe args :
  K "card_nonce" → C cmd → keeps K C (send cmd roe args).
Proof.
  intros HK HC w r w' Hrun.
  assert (Hw : attrs w' = attrs w ∨ ∃ n, attrs w' = <["card_nonce" := n]> (attrs w)).
  { destruct (tr_send cmd args (ext w)) as [[[sw resp]|e] e'] eqn:Htr.
    - rewrite (send_run _ _ _ _ _ _ _ Htr) in Hrun. injection Hrun as _ <-.
      cbn. destruct (resp !! "card_nonce"); eauto.
    - rewrite (send_run_raise _ _ _ _ _ _ Htr) in Hrun.
      injection Hrun as _ <-. eauto. }
  split.
  - intros k Hk. destruct Hw as [-> | [n ->]]; [done|].
    apply lookup_insert_ne. intros <-. done.
  - exists [(cmd, args)]. split.
    + pose proof (send_sent cmd roe args w) as Hs. rewrite Hrun in Hs. exact Hs.
    + repeat constructor. exact HC.
Qed.

Lemma keeps_weaken {A} (K' C' : string → Prop) (m : M Ext A) :
  (∀ k, K' k → K k) → (∀ c, C' c → C c) → keeps K' C' m → keeps K C m.
Proof.
  intros HK HC Hm w r w' Hrun. destruct (Hm w r w' Hrun) as [Ha (l & Hs & Hl)].
  split.
  - intros k Hk. apply Ha. intros Hk'. apply Hk, HK, Hk'.
  - exists l. split; [done|]. eapply Forall_impl; [exact Hl|].
    intros c. apply HC.
Qed.

End Frames.

Ltac keeps_step :=
  lazymatch goal with
  | |- keeps _ _ (_ ≫= _) => apply keeps_bind; [|intros]
  | |- keeps _ _ (mret _) => apply keeps_mret
  | |- keeps _ _ (ret _) => apply keeps_ret
  | |- keeps _ _ (raise _) => apply keeps_raise
  | |- keeps _ _ (lift _) => apply keeps_lift
  | |- keeps _ _ (assert_ _ _) => apply keeps_assert
  | |- keeps _ _ (get_attr _) => apply keeps_get_attr
  | |- keeps _ _ (set_attr _ _) => apply keeps_set_attr
  | |- keeps _ _ (ext_call _) => apply keeps_ext_call
  | |- keeps _ _ (send _ _ _) => apply keeps_send
  | |- keeps _ _ (if ?b then _ else _) => destruct b
  | |- keeps _ _ (match ?x with _ => _ end) => destruct x
  end.

Ltac keeps_auto :=
  repeat keeps_step;
  try solve [unfold session_state, address_cmd, any_cmd; auto 6].

Section MethodFrames.
Context {Ext : Type} `{!Externals Ext} (K C : string → Prop).
Hypothesis K_nonce : K "card_nonce".

Lemma keeps_send_kw cmd args : C cmd → keeps K C (send_kw cmd args).
Proof. intros HC. unfold send_kw. keeps_auto. Qed.

Lemma keeps_send_auth cmd cvc args : C cmd → keeps K C (send_auth cmd cvc args).
Proof.
  intros HC. unfold send_auth. keeps_auto. apply keeps_send_kw, HC.
Qed.

End MethodFrames.

Section SessionFrames.
Context {Ext : Type} `{!Externals Ext}.

Lemma keeps_certificate_check : keeps session_state any_cmd certificate_check.
Proof. unfold certificate_check, any_cmd. keeps_auto. Qed.

Lemma keeps_address faster incl_pubkey slot :
  keeps session_state any_cmd (address faster incl_pubkey slot).
Proof.
  unfold address, any_cmd. keeps_auto.
  all: try (apply keeps_certificate_check).
Qed.

Lemma keeps_change_cvc old_cvc new_cvc :
  keeps session_state any_cmd (change_cvc old_cvc new_cvc).
Proof.
  unfold change_cvc, any_cmd. keeps_auto.
  apply keeps_send_auth; unfold session_state; auto.
Qed.

Lemma keeps_unseal_slot cvc : keeps session_state any_cmd (unseal_slot cvc).
Proof.
  unfold unseal_slot, any_cmd. keeps_auto.
  apply keeps_send_auth; unfold session_state; auto.
Qed.

Lemma keeps_get_slot_usage slot cvc :
  keeps session_state any_cmd (get_slot_usage slot cvc).
Proof.
  unfold get_slot_usage, any_cmd. keeps_auto.
  all: try (apply keeps_send_auth; unfold session_state; auto).
  all: try (apply keeps_address).
Qed.

End SessionFrames.


Section CertificateClaims.
Context {Ext : Type} `{!Externals Ext}.

Lemma certificate_check_steps (w : World Ext) r w' :
  certificate_check w = (r, w') →
  (∃ st w1 certs w2 n e3 check w4,
     send "status" true ∅ w = (Ok st, w1) ∧
     send "certs" true ∅ w1 = (Ok certs, w2) ∧
     pick_nonce (ext w2) = (Ok n, e3) ∧
     send "check" true {[ "nonce" := n ]} (MkWorld (attrs w2) e3 (sent w2))
       = (Ok check, w4) ∧
     attrs w4 !! "_certs_checked" = attrs w !! "_certs_checked" ∧
     match verify_certs st check certs n with
     | Ok rv => r = Ok rv ∧
                w' = MkWorld (<["_certs_checked" := VBool true]> (attrs w4))
                             (ext w4) (sent w4)
     | Raise e => r = Raise e ∧ w' = w4
     end) ∨
  (∃ e, r = Raise e ∧
        attrs w' !! "_certs_checked" = attrs w !! "_certs_checked").
Proof.
  intros Hrun. unfold certificate_check in Hrun.
  assert (Hk : ∀ cmd args (wa wb : World Ext) x,
            send cmd true args wa = (x, wb) →
            attrs wb !! "_certs_checked" = attrs wa !! "_certs_checked").
  { intros cmd args wa wb x Hs.
    exact (proj1 (keeps_send (λ k, k = "card_nonce") any_cmd cmd true args
                    eq_refl I wa _ _ Hs) "_certs_checked"
             ltac:(discriminate)). }
  rewrite run_bind in Hrun.
  destruct (send "status" true ∅ w) as [[st|e] w1] eqn:Hst;
    [|injection Hrun as <- <-; right; eauto].
  rewrite run_bind in Hrun.
  destruct (send "certs" true ∅ w1) as [[certs|e] w2] eqn:Hcerts;
    [|injection Hrun as <- <-; right; exists e; split; [done|];
      rewrite (Hk _ _ _ _ _ Hcerts); eauto].
  rewrite run_bind in Hrun. unfold ext_call at 1 in Hrun.
  destruct (pick_nonce (ext w2)) as [[n|e] e3] eqn:Hn;
    [|injection Hrun as <- <-; right; exists e; split; [done|]; cbn [attrs];
      rewrite (Hk _ _ _ _ _ Hcerts); eauto].
  rewrite run_bind in Hrun.
  destruct (send "check" true {[ "nonce" := n ]} _) as [[check|e] w4] eqn:Hcheck;
    [|injection Hrun as <- <-; right; exists e; split; [done|];
      rewrite (Hk _ _ _ _ _ Hcheck); cbn [attrs];
      rewrite (Hk _ _ _ _ _ Hcerts); eauto].
  left. exists st, w1, certs, w2, n, e3, check, w4.
  repeat (split; [first [reflexivity | assumption]|]).
  split.
  { rewrite (Hk _ _ _ _ _ Hcheck). cbn [attrs].
    rewrite (Hk _ _ _ _ _ Hcerts). eauto. }
  rewrite run_bind in Hrun. unfold lift at 1 in Hrun.
  destruct (verify_certs st check certs n) as [rv|e].
  - cbn in Hrun. injection Hrun as <- <-. done.
  - injection Hrun as <- <-. done.
Qed.

Lemma address_checked_run faster incl_pubkey slot (w : World Ext) v r w' :
  attrs w !! "_certs_checked" = Some v → truthy v = true →
  address faster incl_pubkey slot w = (r, w') →
  evolves (λ k, k = "card_nonce") address_cmd w w'.
Proof.
  intros Hflag Ht Hrun. unfold address in Hrun.
  rewrite run_bind in Hrun. unfold get_attr at 1 in Hrun.
  destruct (attrs w !! "is_tapsigner") as [ts|];
    [|injection Hrun as <- <-; apply evolves_refl].
  rewrite run_bind in Hrun.
  destruct (truthy ts); cbn [negb assert_] in Hrun;
    [injection Hrun as <- <-; apply evolves_refl|].
  cbn [ret] in Hrun.
  rewrite run_bind, (run_get_attr _ _ _ Hflag), Ht in Hrun.
  cbn [negb andb] in Hrun. rewrite run_bind in Hrun. cbn [ret] in Hrun.
  revert Hrun.
  lazymatch goal with
  | |- ?m w = _ → _ =>
      assert (Hk : keeps (λ k, k = "card_nonce") address_cmd m) by keeps_auto
  end.
  apply Hk.
Qed.

(** C7.  The certificate flag is sticky, and only a verification that
    went through sets it.  A [certificate_check] that returns has sent
    'status', 'certs' and 'check', [verify_certs] has returned its result
    on the three responses and the nonce of this run, and the flag
    [_certs_checked] is [True]; one that raises, at whatever step, leaves
    the flag as it found it.  In particular, once the three commands are
    answered, the outcome is that of [verify_certs]: if the verification
    raises, so does the check, with the same exception and the flag not
    set.  While the flag is set (truthy), an [address] call, in faster
    mode or not, checks nothing again: the only commands it sends are
    among 'status', 'dump', 'read' and 'derive', never 'certs' or 'check',
    and the flag is still set when the call is over, so that the same
    holds for the next call. *)
Theorem certs_checked_sticky (w : World Ext) :
  (∀ rv w', certificate_check w = (Ok rv, w') →
     attrs w' !! "_certs_checked" = Some (VBool true) ∧
     ∃ st w1 certs w2 n e3 check w4,
       send "status" true ∅ w = (Ok st, w1) ∧
       send "certs" true ∅ w1 = (Ok certs, w2) ∧
       pick_nonce (ext w2) = (Ok n, e3) ∧
       send "check" true {[ "nonce" := n ]} (MkWorld (attrs w2) e3 (sent w2))
         = (Ok check, w4) ∧
       verify_certs st check certs n = Ok rv) ∧
  (∀ e w', certificate_check w = (Raise e, w') →
     attrs w' !! "_certs_checked" = attrs w !! "_certs_checked") ∧
  (∀ st w1 certs w2 n e3 check w4,
     send "status" true ∅ w = (Ok st, w1) →
     send "certs" true ∅ w1 = (Ok certs, w2) →
     pick_nonce (ext w2) = (Ok n, e3) →
     send "check" true {[ "nonce" := n ]} (MkWorld (attrs w2) e3 (sent w2))
       = (Ok check, w4) →
     certificate_check w
       = match verify_certs st check certs n with
         | Ok rv =>
             (Ok rv, MkWorld (<["_certs_checked" := VBool true]> (attrs w4))
                             (ext w4) (sent w4))
         | Raise e => (Raise e, w4)
         end ∧
     attrs w4 !! "_certs_checked" = attrs w !! "_certs_checked") ∧
  (∀ v faster incl_pubkey slot r w',
     attrs w !! "_certs_checked" = Some v → truthy v = true →
     address faster incl_pubkey slot w = (r, w') →
     attrs w' !! "_certs_checked" = Some v ∧
     ∃ l, sent w' = (l ++ sent w)%list ∧
          Forall (λ c, c.1 ≠ "certs" ∧ c.1 ≠ "check") l).
Proof.
  split; [|split; [|split]].
  - intros rv w' Hrun.
    destruct (certificate_check_steps _ _ _ Hrun)
      as [(st & w1 & certs & w2 & n & e3 & check & w4
           & Hst & Hcerts & Hn & Hcheck & _ & Hv) | (e & He & _)];
      [|discriminate].
    destruct (verify_certs st check certs n) as [rv'|e] eqn:Hver;
      destruct Hv as [Hr ->]; [|discriminate].
    injection Hr as <-. split; [apply lookup_insert_eq|].
    exists st, w1, certs, w2, n, e3, check, w4. auto.
  - intros e w' Hrun.
    destruct (certificate_check_steps _ _ _ Hrun)
      as [(st & w1 & certs & w2 & n & e3 & check & w4
           & _ & _ & _ & _ & Hflag & Hv) | (e0 & _ & Hflag)];
      [|exact Hflag].
    destruct (verify_certs st check certs n) as [rv|e0];
      destruct Hv as [Hr ->]; [discriminate|exact Hflag].
  - intros st w1 certs w2 n e3 check w4 Hst Hcerts Hn Hcheck. split.
    + unfold certificate_check.
      rewrite run_bind, Hst. rewrite run_bind, Hcerts.
      rewrite run_bind. unfold ext_call at 1. rewrite Hn.
      rewrite run_bind, Hcheck.
      rewrite run_bind. unfold lift at 1.
      destruct (verify_certs st check certs n); reflexivity.
    + assert (Hk : ∀ cmd args (wa wb : World Ext) x,
                send cmd true args wa = (x, wb) →
                attrs wb !! "_certs_checked" = attrs wa !! "_certs_checked").
      { intros cmd args wa wb x Hs.
        exact (proj1 (keeps_send (λ k, k = "card_nonce") any_cmd cmd true args
                        eq_refl I wa _ _ Hs) "_certs_checked"
                 ltac:(discriminate)). }
      rewrite (Hk _ _ _ _ _ Hcheck). cbn [attrs].
      rewrite (Hk _ _ _ _ _ Hcerts). apply (Hk _ _ _ _ _ Hst).
  - intros v faster incl_pubkey slot r w' Hflag Ht Hrun.
    destruct (address_checked_run _ _ _ _ _ _ _ Hflag Ht Hrun)
      as [Hattr (l & Hsent & Hl)].
    split.
    + rewrite Hattr by discriminate. exact Hflag.
    + exists l. split; [exact Hsent|].
      eapply Forall_impl; [exact Hl|].
      intros c Hc. unfold address_cmd in Hc.
      split; intros Heq; rewrite Heq in Hc;
        destruct Hc as [Hc|[Hc|[Hc|Hc]]]; discriminate Hc.
Qed.

End CertificateClaims.

(** C7 on the scripted card.  With a verification layer that accepts the
    chain, the certificate check returns and sets the flag, and the
    [address] call that follows (full mode, current slot not yet set up)
    sends one 'status' and leaves the flag set.  With a verification layer
    that rejects the chain, the check ends in its exception after the
    same three commands, and the flag stays unset. *)
Lemma certs_checked_sticky_witness :
  let w := Demo.session (VBytes Demo.nonce16)
             [(0x9000%N, {[ "pubkey" := VBytes [2%N; 9%N] ]});
              (0x9000%N, {[ "cert_chain" := VList [] ]});
              (0x9000%N, {[ "auth_sig" := VBytes [1%N] ]});
              (0x9000%N, {[ "slots" := VList [VInt 0; VInt 1] ]})] in
  let w1 := (certificate_check w).2 in
  let w2 := (address false false VNone w1).2 in
  (attrs w1 !! "_certs_checked" = Some (VBool true) ∧
   attrs w2 !! "_certs_checked" = Some (VBool true) ∧
   ∃ l, sent w2 = (l ++ sent w1)%list ∧
        Forall (λ c, c.1 ≠ "certs" ∧ c.1 ≠ "check") l) ∧
  (@certificate_check _ untrusted w).1
    = Raise (ValueError [Lit "untrusted root"]) ∧
  attrs (@certificate_check _ untrusted w).2 !! "_certs_checked"
    = Some (VBool false).
Proof.
  intros w w1 w2.
  assert (Hok : certificate_check w = (Ok (VStr "factory root"), w1))
    by by_evaluation.
  pose proof (proj1 (proj1 (certs_checked_sticky w) (VStr "factory root") w1 Hok))
    as Hset.
  split; [split; [exact Hset|]|].
  - assert (Haddr : address false false VNone w1
                    = ((address false false VNone w1).1, w2)) by by_evaluation.
    exact (proj2 (proj2 (proj2 (certs_checked_sticky w1))) (VBool true)
             false false VNone _ w2 Hset eq_refl Haddr).
  - set (u1 := (@send _ untrusted "status" true ∅ w).2).
    set (u2 := (@send _ untrusted "certs" true ∅ u1).2).
    set (u4 := (@send _ untrusted "check" true
                  {[ "nonce" := VBytes Demo.nonce16 ]}
                  (MkWorld (attrs u2) (ext u2) (sent u2))).2).
    assert (Hrun : @certificate_check _ untrusted w
                   = (Raise (ValueError [Lit "untrusted root"]), u4) ∧
                   attrs u4 !! "_certs_checked"
                   = attrs w !! "_certs_checked").
    { refine (proj1 (proj2 (proj2 (@certs_checked_sticky _ untrusted w)))
                {[ "pubkey" := VBytes [2%N; 9%N] ]} u1
                {[ "cert_chain" := VList [] ]} u2
                (VBytes Demo.nonce16) (ext u2)
                {[ "auth_sig" := VBytes [1%N] ]} u4 _ _ _ _); by_evaluation. }
    destruct Hrun as [-> Hflag]. split; [reflexivity|].
    cbn [snd]. rewrite Hflag. by_evaluation.
Defined.

Section IdentityClaims.
Context {Ext : Type} `{!Externals Ext}.

Lemma first_look_inv (w w' : World Ext) :
  first_look w = (Ok tt, w') →
  ∃ st w1 pubkey ident ver nonce,
    send "status" true ∅ w = (Ok st, w1) ∧
    st !! "pubkey" = Some pubkey ∧
    card_pubkey_to_ident pubkey = Ok ident ∧
    st !! "ver" = Some ver ∧
    attrs w' !! "card_pubkey" = Some pubkey ∧
    attrs w' !! "card_ident" = Some ident ∧
    attrs w' !! "applet_version" = Some ver ∧
    attrs w' !! "is_testnet" = Some (dict_get st "testnet" (VBool false)) ∧
    attrs w' !! "is_tapsigner" = Some (dict_get st "tapsigner" (VBool false)) ∧
    attrs w' !! "card_nonce" = Some nonce ∧ truthy nonce = true ∧
    attrs w' !! "_certs_checked" = Some (VBool false).
Proof.
  intros Hrun. unfold first_look in Hrun. rewrite run_bind in Hrun.
  destruct (send "status" true ∅ w) as [[st|e] w1] eqn:Hst; [|discriminate].
  exists st, w1.
  unfold mbind, M_bind, bind, set_attr, get_attr, lift, assert_, ret, raise,
    dict_item in Hrun.
  cbn [attrs ext sent] in Hrun.
  cbn beta iota zeta in Hrun.
  destruct (negb (has_key st "error"));
    cbn beta iota zeta in Hrun; [|discriminate].
  destruct (st !! "proto") as [proto|];
    cbn beta iota zeta in Hrun; [|discriminate].
  destruct (py_eq proto (VInt 1));
    cbn beta iota zeta in Hrun; [|discriminate].
  destruct (st !! "pubkey") as [pubkey|];
    cbn beta iota zeta in Hrun; [|discriminate].
  cbn [attrs ext sent] in Hrun.
  rewrite lookup_insert_eq in Hrun. cbn beta iota zeta in Hrun.
  destruct (card_pubkey_to_ident pubkey) as [ident|] eqn:Hid;
    cbn beta iota zeta in Hrun; [|discriminate].
  destruct (st !! "ver") as [ver|];
    cbn beta iota zeta in Hrun; [|discriminate].
  destruct (unpack2 _) as [[active num]|];
    cbn beta iota zeta in Hrun; [|discriminate].
  cbn [attrs ext sent] in Hrun.
  rewrite !(lookup_insert_ne _ _ "card_nonce") in Hrun by discriminate.
  destruct (attrs w1 !! "card_nonce") as [nonce|] eqn:Hn;
    cbn beta iota zeta in Hrun; [|discriminate].
  destruct (truthy nonce) eqn:Ht;
    cbn beta iota zeta in Hrun; [|discriminate].
  injection Hrun as <-. cbn [attrs].
  exists pubkey, ident, ver, nonce.
  repeat (split; [first [reflexivity | assumption
                        | by simplify_map_eq]|]).
  by simplify_map_eq.
Qed.

(** C9, as the code has it.  The identity of the card is written by
    [first_look] and by nothing else: every attribute other than the nonce
    and the certificate flag, so [card_pubkey], [card_ident],
    [applet_version], [is_testnet] and [is_tapsigner] among them, is left
    as it was by [send], [send_auth], [certificate_check], [address],
    [change_cvc], [unseal_slot] and [get_slot_usage], whether they return
    or raise.  A [first_look] that returns has stored what its own status
    response reports (the public key, the identity derived from it, the
    version, the network and variant flags) and leaves a nonce that is
    set and non-empty. *)
Theorem identity_written_by_first_look (w : World Ext) :
  (∀ k, ¬ session_state k →
     (∀ cmd roe args r w',
        send cmd roe args w = (r, w') → attrs w' !! k = attrs w !! k) ∧
     (∀ cmd cvc args r w',
        send_auth cmd cvc args w = (r, w') → attrs w' !! k = attrs w !! k) ∧
     (∀ r w', certificate_check w = (r, w') → attrs w' !! k = attrs w !! k) ∧
     (∀ faster incl_pubkey slot r w',
        address faster incl_pubkey slot w = (r, w') →
        attrs w' !! k = attrs w !! k) ∧
     (∀ old_cvc new_cvc r w',
        change_cvc old_cvc new_cvc w = (r, w') → attrs w' !! k = attrs w !! k) ∧
     (∀ cvc r w', unseal_slot cvc w = (r, w') → attrs w' !! k = attrs w !! k) ∧
     (∀ slot cvc r w',
        get_slot_usage slot cvc w = (r, w') → attrs w' !! k = attrs w !! k)) ∧
  (∀ w', first_look w = (Ok tt, w') →
     ∃ st w1 pubkey ident ver nonce,
       send "status" true ∅ w = (Ok st, w1) ∧
       st !! "pubkey" = Some pubkey ∧
       card_pubkey_to_ident pubkey = Ok ident ∧
       st !! "ver" = Some ver ∧
       attrs w' !! "card_pubkey" = Some pubkey ∧
       attrs w' !! "card_ident" = Some ident ∧
       attrs w' !! "applet_version" = Some ver ∧
       attrs w' !! "is_testnet" = Some (dict_get st "testnet" (VBool false)) ∧
       attrs w' !! "is_tapsigner"
         = Some (dict_get st "tapsigner" (VBool false)) ∧
       attrs w' !! "card_nonce" = Some nonce ∧ truthy nonce = true ∧
       attrs w' !! "_certs_checked" = Some (VBool false)).
Proof.
  split; [|apply first_look_inv].
  assert (Hnonce : session_state "card_nonce") by (left; reflexivity).
  intros k Hk. repeat split.
  - intros cmd roe args r w' Hrun.
    exact (proj1 (keeps_send session_state any_cmd cmd roe args Hnonce I
                    w r w' Hrun) k Hk).
  - intros cmd cvc args r w' Hrun.
    exact (proj1 (keeps_send_auth session_state any_cmd Hnonce cmd cvc args I
                    w r w' Hrun) k Hk).
  - intros r w' Hrun. exact (proj1 (keeps_certificate_check w r w' Hrun) k Hk).
  - intros faster incl_pubkey slot r w' Hrun.
    exact (proj1 (keeps_address faster incl_pubkey slot w r w' Hrun) k Hk).
  - intros old_cvc new_cvc r w' Hrun.
    exact (proj1 (keeps_change_cvc old_cvc new_cvc w r w' Hrun) k Hk).
  - intros cvc r w' Hrun. exact (proj1 (keeps_unseal_slot cvc w r w' Hrun) k Hk).
  - intros slot cvc r w' Hrun.
    exact (proj1 (keeps_get_slot_usage slot cvc w r w' Hrun) k Hk).
Qed.

End IdentityClaims.

(** C9 as stated does not hold.  [first_look] is run twice on a transport
    whose second status response reports another public key: both runs
    succeed, and the identity of the session is no longer the one it had
    after the first.  A later response with an empty 'card_nonce' then
    leaves the initialized session with an empty nonce. *)
Lemma identity_changes_on_second_look :
  let status pubkey : N * Args :=
    (0x9000%N, {[ "proto" := VInt 1; "ver" := VStr "1.0";
                  "pubkey" := VBytes pubkey;
                  "card_nonce" := VBytes Demo.nonce16;
                  "slots" := VList [VInt 0; VInt 1] ]}) in
  let w0 : World (list (N * Args)) :=
    MkWorld ∅ [status [2%N; 9%N]; status [3%N; 7%N];
               (0x9000%N, {[ "card_nonce" := VBytes [] ]})] [] in
  let w1 := (first_look w0).2 in
  let w2 := (first_look w1).2 in
  let w3 := (send "nfc" true ∅ w2).2 in
  (first_look w0).1 = Ok tt ∧ (first_look w1).1 = Ok tt ∧
  attrs w1 !! "card_pubkey" = Some (VBytes [2%N; 9%N]) ∧
  attrs w2 !! "card_pubkey" = Some (VBytes [3%N; 7%N]) ∧
  attrs w1 !! "card_ident" ≠ attrs w2 !! "card_ident" ∧
  (send "nfc" true ∅ w2).1 = Ok {[ "card_nonce" := VBytes [] ]} ∧
  attrs w3 !! "card_nonce" = Some (VBytes []) ∧
  truthy (VBytes []) = false.
Proof.
  cbv zeta.
  repeat (split; [vm_compute; reflexivity|]).
  split; [vm_compute; discriminate|].
  repeat (split; [vm_compute; reflexivity|]).
  reflexivity.
Qed.

(** C9 as amended, on the scripted card: a first look stores the public
    key of the status response and a non-empty nonce, and the command
    sent afterwards leaves the public key alone. *)
Lemma identity_written_by_first_look_witness :
  let w0 : World (list (N * Args)) :=
    MkWorld ∅ [(0x9000%N, {[ "proto" := VInt 1; "ver" := VStr "1.0";
                             "pubkey" := VBytes [2%N; 9%N];
                             "card_nonce" := VBytes Demo.nonce16 ]});
               (0x9000%N, {[ "card_nonce" := VBytes [4%N] ]})] [] in
  let w1 := (first_look w0).2 in
  let w2 := (send "nfc" true ∅ w1).2 in
  (∃ nonce, attrs w1 !! "card_pubkey" = Some (VBytes [2%N; 9%N]) ∧
            attrs w1 !! "card_nonce" = Some nonce ∧ truthy nonce = true) ∧
  attrs w2 !! "card_pubkey" = attrs w1 !! "card_pubkey".
Proof.
  intros w0 w1 w2.
  assert (Hlook : first_look w0 = (Ok tt, w1))
    by vm_cast_no_check (@eq_refl _ (first_look w0)).
  assert (Hsend : send "nfc" true ∅ w1 = ((send "nfc" true ∅ w1).1, w2))
    by vm_cast_no_check (@eq_refl _ (send "nfc" true ∅ w1)).
  split.
  - destruct (proj2 (identity_written_by_first_look w0) w1 Hlook)
      as (st & w' & pubkey & ident & ver & nonce & Hst & Hpk & _ & _ & Hcp
          & _ & _ & _ & _ & Hn & Ht & _).
    exists nonce. split; [|split]; [|exact Hn|exact Ht].
    rewrite Hcp, <- Hpk. f_equal.
    assert (Hst' : send "status" true ∅ w0
                   = (Ok {[ "proto" := VInt 1; "ver" := VStr "1.0";
                            "pubkey" := VBytes [2%N; 9%N];
                            "card_nonce" := VBytes Demo.nonce16 ]},
                      (send "status" true ∅ w0).2))
      by vm_cast_no_check (@eq_refl _ (send "status" true ∅ w0)).
    rewrite Hst' in Hst. injection Hst as <- _. reflexivity.
  - assert (Hk : ¬ session_state "card_pubkey")
      by (intros [Hk | Hk]; discriminate Hk).
    exact (proj1 (proj1 (identity_written_by_first_look w1) "card_pubkey" Hk)
             "nfc" true ∅ (send "nfc" true ∅ w1).1 w2 Hsend).
Defined.

Section SecretCodeClaims.
Context {Ext : Type} `{!Externals Ext} `{!PathHelpers}.

Lemma send_auth_refused cmd cvc args (w : World Ext) nonce pubkey e e' :
  truthy cvc = true →
  attrs w !! "card_nonce" = Some nonce →
  attrs w !! "card_pubkey" = Some pubkey →
  calc_xcvc cmd nonce pubkey cvc (ext w) = (Raise e, e') →
  send_auth cmd cvc args w = (Raise e, MkWorld (attrs w) e' (sent w)).
Proof.
  intros Ht Hn Hp Hx. unfold send_auth. rewrite Ht.
  rewrite run_bind, run_bind, (run_get_attr _ _ _ Hn).
  rewrite run_bind, (run_get_attr _ _ _ Hp).
  rewrite run_bind. unfold ext_call at 1. rewrite Hx. reflexivity.
Qed.

Lemma world_eta (w : World Ext) : MkWorld (attrs w) (ext w) (sent w) = w.
Proof. destruct w. reflexivity. Qed.

Lemma send_auth_bad_length cmd cvc args (w : World Ext) n :
  authenticator_checks_length →
  truthy cvc = true → py_len cvc = Ok n → ¬ (6 ≤ n ≤ 32) →
  ∃ x, send_auth cmd cvc args w = (Raise x, w).
Proof.
  intros Hlaw Ht Hlen Hout. unfold send_auth. rewrite Ht.
  rewrite run_bind, run_bind. unfold get_attr at 1.
  destruct (attrs w !! "card_nonce") as [nonce|]; [|eauto].
  rewrite run_bind. unfold get_attr at 1.
  destruct (attrs w !! "card_pubkey") as [pubkey|]; [|eauto].
  rewrite run_bind. unfold ext_call at 1.
  destruct (Hlaw cmd nonce pubkey cvc (ext w) n Hlen Hout) as [x ->].
  rewrite world_eta. eauto.
Qed.

Lemma raise_first {A B} (m : M Ext A) (k : A → M Ext B) (w : World Ext) :
  (∃ x, m w = (Raise x, w)) → ∃ x, (m ≫= k) w = (Raise x, w).
Proof. intros [x Hm]. exists x. rewrite run_bind, Hm. reflexivity. Qed.

Lemma guarded_raise {A} (positive : bool) (k : M Ext A) (w : World Ext) :
  (∃ x, k w = (Raise x, w)) →
  ∃ x, (is_tapsigner ← get_attr "is_tapsigner";
        assert_ (if positive then truthy is_tapsigner
                 else negb (truthy is_tapsigner)) [];; k) w = (Raise x, w).
Proof.
  intros [x Hk]. rewrite run_bind. unfold get_attr at 1.
  destruct (attrs w !! "is_tapsigner") as [v|]; [|eauto].
  rewrite run_bind.
  destruct (if positive then truthy v else negb (truthy v)); [|eauto].
  cbn [assert_ ret]. eauto.
Qed.

Lemma change_cvc_bad_new old_cvc new_cvc (w : World Ext) n :
  py_len new_cvc = Ok n → ¬ (6 ≤ n ≤ 32) →
  change_cvc old_cvc new_cvc w = (Raise (AssertionError []), w).
Proof.
  intros Hlen Hout. unfold change_cvc.
  rewrite run_bind. unfold lift at 1. rewrite Hlen.
  assert (Hb : (6 <=? n) && (n <=? 32) = false).
  { destruct (6 <=? n) eqn:H6; [|reflexivity].
    destruct (n <=? 32) eqn:H32; [|reflexivity].
    apply Z.leb_le in H6, H32. lia. }
  rewrite run_bind, Hb. reflexivity.
Qed.


End SecretCodeClaims.

Lemma demo_checks_length : @authenticator_checks_length _ Demo.demo.
Proof.
  intros cmd nonce pubkey cvc e n Hlen Hout.
  exists (AssertionError []). cbn. unfold Demo.demo_xcvc. rewrite Hlen.
  destruct (6 <=? n) eqn:H6; [|reflexivity].
  destruct (n <=? 32) eqn:H32; [|reflexivity].
  apply Z.leb_le in H6, H32. lia.
Qed.



Section AddressClaims.
Context {Ext : Type} `{!Externals Ext}.

Lemma address_unfold faster incl_pubkey slot :
  address faster incl_pubkey slot
  = (is_tapsigner ← get_attr "is_tapsigner";
     assert_ (negb (truthy is_tapsigner)) [];;
     checked ← get_attr "_certs_checked";
     (if negb (truthy checked) && negb faster
      then certificate_check;; ret tt
      else ret tt);;
     st ← send "status" true ∅;
     slots ← lift (dict_item st "slots");
     cur_slot ← lift (py_first slots);
     address_for_slot faster incl_pubkey st cur_slot (asked_slot slot cur_slot)).
Proof. reflexivity. Qed.

Lemma address_run faster incl_pubkey slot (w w0 w1 : World Ext) st slots cur :
  check_done faster w w0 →
  send "status" true ∅ w0 = (Ok st, w1) →
  st !! "slots" = Some slots → py_first slots = Ok cur →
  address faster incl_pubkey slot w
  = address_for_slot faster incl_pubkey st cur (asked_slot slot cur) w1.
Proof.
  intros (ts & ck & Hts & Hnot & Hck & Hdone) Hst Hslots Hcur.
  rewrite address_unfold.
  rewrite (run_assert_not_tapsigner _ _ _ Hts Hnot).
  rewrite run_bind, (run_get_attr _ _ _ Hck).
  assert (Hpre : ((if negb (truthy ck) && negb faster
                   then certificate_check;; ret tt else ret tt) : M Ext unit) w
                 = (Ok tt, w0)).
  { destruct (negb (truthy ck) && negb faster).
    - destruct Hdone as [rv Hcc]. rewrite run_bind, Hcc. reflexivity.
    - subst w0. reflexivity. }
  rewrite run_bind, Hpre.
  rewrite run_bind, Hst.
  rewrite run_bind, (run_dict_item _ _ _ _ Hslots).
  rewrite run_bind. unfold lift at 1. rewrite Hcur. reflexivity.
Qed.

Lemma address_ok_prefix faster incl_pubkey slot (w w' : World Ext) v :
  address faster incl_pubkey slot w = (Ok v, w') →
  ∃ w0 st w1 slots cur,
    check_done faster w w0 ∧
    send "status" true ∅ w0 = (Ok st, w1) ∧
    st !! "slots" = Some slots ∧ py_first slots = Ok cur ∧
    address_for_slot faster incl_pubkey st cur (asked_slot slot cur) w1
      = (Ok v, w').
Proof.
  intros Hrun. rewrite address_unfold in Hrun.
  rewrite run_bind in Hrun. unfold get_attr at 1 in Hrun.
  destruct (attrs w !! "is_tapsigner") as [ts|] eqn:Hts; [|discriminate].
  rewrite run_bind in Hrun.
  destruct (truthy ts) eqn:Hnot; [discriminate|].
  cbn [negb assert_ ret] in Hrun.
  rewrite run_bind in Hrun. unfold get_attr at 1 in Hrun.
  destruct (attrs w !! "_certs_checked") as [ck|] eqn:Hck; [|discriminate].
  rewrite run_bind in Hrun.
  assert (Hpre : ∃ w0, check_done faster w w0 ∧
            ((st ← send "status" true ∅;
              slots ← lift (dict_item st "slots");
              cur_slot ← lift (py_first slots);
              address_for_slot faster incl_pubkey st cur_slot
                (asked_slot slot cur_slot)) w0 = (Ok v, w'))).
  { destruct (negb (truthy ck) && negb faster) eqn:Hb.
    - rewrite run_bind in Hrun.
      destruct (certificate_check w) as [[rv|e] w0] eqn:Hcc; [|discriminate].
      exists w0. split; [|exact Hrun].
      exists ts, ck. rewrite Hb. eauto.
    - exists w. split; [|exact Hrun].
      exists ts, ck. rewrite Hb. eauto. }
  clear Hrun. destruct Hpre as (w0 & Hdone & Hrun).
  rewrite run_bind in Hrun.
  destruct (send "status" true ∅ w0) as [[st|e] w1] eqn:Hst; [|discriminate].
  rewrite run_bind in Hrun. unfold lift at 1, dict_item in Hrun.
  destruct (st !! "slots") as [slots|] eqn:Hslots; [|discriminate].
  rewrite run_bind in Hrun. unfold lift at 1 in Hrun.
  destruct (py_first slots) as [cur|] eqn:Hcur; [|discriminate].
  exists w0, st, w1, slots, cur. auto.
Qed.

Lemma address_for_slot_derive incl_pubkey st cur slot (w1 w3 w5 : World Ext)
    n e2 rr pubkey addr my_nonce e4 card_nonce rr2 master_pubkey sig chain_code
    testnet :
  negb (has_key st "addr") && py_eq cur slot = false →
  py_eq slot cur = true →
  pick_nonce (ext w1) = (Ok n, e2) →
  send "read" true {[ "nonce" := n ]} (MkWorld (attrs w1) e2 (sent w1))
    = (Ok rr, w3) →
  recover_address st rr n = Ok (pubkey, addr) →
  pick_nonce (ext w3) = (Ok my_nonce, e4) →
  attrs w3 !! "card_nonce" = Some card_nonce →
  send "derive" true {[ "nonce" := my_nonce ]}
       (MkWorld (attrs w3) e4 (sent w3)) = (Ok rr2, w5) →
  rr2 !! "master_pubkey" = Some master_pubkey →
  rr2 !! "sig" = Some sig →
  rr2 !! "chain_code" = Some chain_code →
  attrs w5 !! "is_testnet" = Some testnet →
  address_for_slot false incl_pubkey st cur slot w1
  = (match verify_master_pubkey master_pubkey sig chain_code my_nonce
             card_nonce with
     | Raise e => Raise e
     | Ok master_pub =>
         match verify_derive_address chain_code master_pub testnet with
         | Raise e => Raise e
         | Ok (derived, _) =>
             if py_eq derived addr
             then Ok (if incl_pubkey then VTuple [pubkey; addr] else addr)
             else Raise (ValueError
                           [Lit "card did not derive address as expected"])
         end
     end, w5).
Proof.
  intros Hc1 Hc2 Hn Hread Hrec Hmy Hcn Hderive Hmp Hsig Hcc Htn.
  unfold address_for_slot, mbind, M_bind, bind, get_attr, lift, assert_,
    ext_call, ret, raise, dict_item.
  rewrite Hc1, Hc2. cbn [negb]. cbn beta iota zeta.
  rewrite Hn. cbn beta iota zeta. rewrite Hread. cbn beta iota zeta.
  rewrite Hrec. cbn beta iota zeta. rewrite Hmy. cbn beta iota zeta.
  cbn [attrs]. rewrite Hcn. cbn beta iota zeta.
  rewrite Hderive. cbn beta iota zeta. rewrite Hmp. cbn beta iota zeta.
  rewrite Hsig. cbn beta iota zeta. rewrite Hcc. cbn beta iota zeta.
  destruct (verify_master_pubkey master_pubkey sig chain_code my_nonce
              card_nonce) as [master_pub|]; cbn beta iota zeta; [|reflexivity].
  rewrite Htn. cbn beta iota zeta.
  destruct (verify_derive_address chain_code master_pub testnet)
    as [[derived x]|]; cbn beta iota zeta; [|reflexivity].
  destruct (py_eq derived addr); destruct incl_pubkey; reflexivity.
Qed.

Lemma address_for_slot_ok_inv incl_pubkey st cur slot (w1 w' : World Ext) v :
  address_for_slot false incl_pubkey st cur slot w1 = (Ok v, w') →
  (negb (has_key st "addr") && py_eq cur slot = true ∧ v = VNone ∧ w' = w1) ∨
  (negb (has_key st "addr") && py_eq cur slot = false ∧
   py_eq slot cur = false ∧ incl_pubkey = false ∧
   ∃ rr, send "dump" true {[ "slot" := slot ]} w1 = (Ok rr, w') ∧
         rr !! "addr" = Some v) ∨
  (negb (has_key st "addr") && py_eq cur slot = false ∧
   py_eq slot cur = true ∧
   ∃ n e2 rr w3 pubkey addr,
     pick_nonce (ext w1) = (Ok n, e2) ∧
     send "read" true {[ "nonce" := n ]} (MkWorld (attrs w1) e2 (sent w1))
       = (Ok rr, w3) ∧
     recover_address st rr n = Ok (pubkey, addr) ∧
     second_derivation addr w3 w' ∧
     v = if incl_pubkey then VTuple [pubkey; addr] else addr).
Proof.
  intros Hrun.
  unfold address_for_slot, mbind, M_bind, bind, get_attr, lift, assert_,
    ext_call, ret, raise, dict_item in Hrun.
  destruct (negb (has_key st "addr") && py_eq cur slot) eqn:Hc1.
  { injection Hrun as <- <-. left. auto. }
  right.
  destruct (py_eq slot cur) eqn:Hc2; cbn [negb] in Hrun;
    cbn beta iota zeta in Hrun.
  - right. split; [reflexivity|]. split; [reflexivity|].
    destruct (pick_nonce (ext w1)) as [[n|] e2] eqn:Hn;
      cbn beta iota zeta in Hrun; [|discriminate].
    destruct (send "read" true {[ "nonce" := n ]} _) as [[rr|] w3] eqn:Hread;
      cbn beta iota zeta in Hrun; [|discriminate].
    destruct (recover_address st rr n) as [[pubkey addr]|] eqn:Hrec;
      cbn beta iota zeta in Hrun; [|discriminate].
    exists n, e2, rr, w3, pubkey, addr.
    split; [first [reflexivity | exact Hn]|].
    split; [first [reflexivity | exact Hread]|].
    split; [first [reflexivity | exact Hrec]|].
    destruct (pick_nonce (ext w3)) as [[my_nonce|] e4] eqn:Hmy;
      cbn beta iota zeta in Hrun; [|discriminate].
    cbn [attrs] in Hrun.
    destruct (attrs w3 !! "card_nonce") as [card_nonce|] eqn:Hcn;
      cbn beta iota zeta in Hrun; [|discriminate].
    destruct (send "derive" true {[ "nonce" := my_nonce ]} _)
      as [[rr2|] w5] eqn:Hderive;
      cbn beta iota zeta in Hrun; [|discriminate].
    destruct (rr2 !! "master_pubkey") as [master_pubkey|] eqn:Hmp;
      cbn beta iota zeta in Hrun; [|discriminate].
    destruct (rr2 !! "sig") as [sig|] eqn:Hsig;
      cbn beta iota zeta in Hrun; [|discriminate].
    destruct (rr2 !! "chain_code") as [chain_code|] eqn:Hcc;
      cbn beta iota zeta in Hrun; [|discriminate].
    destruct (verify_master_pubkey master_pubkey sig chain_code my_nonce
                card_nonce) as [master_pub|] eqn:Hvm;
      cbn beta iota zeta in Hrun; [|discriminate].
    destruct (attrs w5 !! "is_testnet") as [testnet|] eqn:Htn;
      cbn beta iota zeta in Hrun; [|discriminate].
    destruct (verify_derive_address chain_code master_pub testnet)
      as [[derived x]|] eqn:Hvd;
      cbn beta iota zeta in Hrun; [|discriminate].
    destruct (py_eq derived addr) eqn:Heq; cbn [negb] in Hrun;
      cbn beta iota zeta in Hrun; [|discriminate].
    assert (Hv : v = (if incl_pubkey then VTuple [pubkey; addr] else addr)
                 ∧ w' = w5).
    { destruct incl_pubkey; injection Hrun as <- <-; auto. }
    destruct Hv as [-> ->]. split; [|reflexivity].
    exists my_nonce, e4, card_nonce, rr2, master_pubkey, sig, chain_code,
      master_pub, testnet, derived, x.
    repeat (split; [first [reflexivity | assumption]|]).
    first [reflexivity | assumption].
  - left. split; [reflexivity|]. split; [reflexivity|].
    destruct (send "dump" true {[ "slot" := slot ]} w1) as [[rr|] w2] eqn:Hdump;
      cbn beta iota zeta in Hrun; [|discriminate].
    destruct incl_pubkey; cbn [negb] in Hrun; cbn beta iota zeta in Hrun;
      [discriminate|].
    split; [reflexivity|]. exists rr.
    destruct (rr !! "addr") as [a|] eqn:Ha; [|discriminate].
    injection Hrun as <- <-. auto.
Qed.

Lemma address_for_slot_ok_fwd incl_pubkey st cur slot (w1 w' : World Ext) v :
  (negb (has_key st "addr") && py_eq cur slot = true ∧ v = VNone ∧ w' = w1) ∨
  (negb (has_key st "addr") && py_eq cur slot = false ∧
   py_eq slot cur = false ∧ incl_pubkey = false ∧
   ∃ rr, send "dump" true {[ "slot" := slot ]} w1 = (Ok rr, w') ∧
         rr !! "addr" = Some v) ∨
  (negb (has_key st "addr") && py_eq cur slot = false ∧
   py_eq slot cur = true ∧
   ∃ n e2 rr w3 pubkey addr,
     pick_nonce (ext w1) = (Ok n, e2) ∧
     send "read" true {[ "nonce" := n ]} (MkWorld (attrs w1) e2 (sent w1))
       = (Ok rr, w3) ∧
     recover_address st rr n = Ok (pubkey, addr) ∧
     second_derivation addr w3 w' ∧
     v = if incl_pubkey then VTuple [pubkey; addr] else addr) →
  address_for_slot false incl_pubkey st cur slot w1 = (Ok v, w').
Proof.
  intros [(Hc1 & -> & ->) | [(Hc1 & Hc2 & -> & rr & Hdump & Ha)
    | (Hc1 & Hc2 & n & e2 & rr & w3 & pubkey & addr & Hn & Hread & Hrec
       & (my_nonce & e4 & card_nonce & rr2 & master_pubkey & sig & chain_code
          & master_pub & testnet & derived & x & Hmy & Hcn & Hderive & Hmp
          & Hsig & Hcc & Hvm & Htn & Hvd & Heq) & ->)]].
  - unfold address_for_slot. rewrite Hc1. reflexivity.
  - unfold address_for_slot. rewrite Hc1, Hc2. cbn [negb].
    rewrite run_bind, Hdump. rewrite run_bind. cbn [negb assert_ ret].
    unfold lift, dict_item. rewrite Ha. reflexivity.
  - rewrite (address_for_slot_derive incl_pubkey st cur slot w1 w3 w' n e2 rr
               pubkey addr my_nonce e4 card_nonce rr2 master_pubkey sig
               chain_code testnet Hc1 Hc2 Hn Hread Hrec Hmy Hcn Hderive Hmp
               Hsig Hcc Htn).
    rewrite Hvm, Hvd, Heq. reflexivity.
Qed.

(** C5, as the code has it.  Without faster mode, [address] returns a
    value exactly when its entry is passed (a SATSCARD, the certificate
    chain checked before or on the way), the 'status' command is answered
    with a response that names the slots, and one of three things holds.
    The current slot is asked for and the response has no 'addr': the
    result is [None].  Another slot is asked for, and no public key with
    it: the 'dump' command for that slot is the one command sent after
    'status' and the result is the 'addr' of its response; nothing is
    derived or compared.  The current slot is asked for and has an
    address: the 'read' command is sent with a fresh nonce, an address is
    recovered from its response, and the second derivation is made and
    confirms it: the 'derive' command with another fresh nonce, the
    master public key verified against the signature, the chain code,
    that nonce and the nonce the card had before the command, and the
    address derived from chain code and master public key, equal to the
    recovered one, which is the result.

    On that last path, once the 'derive' response is there, the outcome
    is decided by the two verifications and the comparison: a failed
    verification of the master public key ends the call in its
    exception, so does a failed derivation, addresses that differ end it
    in the [ValueError], and only equal addresses are returned. *)
Theorem address_verification incl_pubkey slot (w : World Ext) :
  (∀ v w',
     address false incl_pubkey slot w = (Ok v, w') ↔
     ∃ w0 st w1 slots cur,
       check_done false w w0 ∧
       send "status" true ∅ w0 = (Ok st, w1) ∧
       st !! "slots" = Some slots ∧ py_first slots = Ok cur ∧
       ((negb (has_key st "addr") && py_eq cur (asked_slot slot cur) = true ∧
         v = VNone ∧ w' = w1) ∨
        (negb (has_key st "addr") && py_eq cur (asked_slot slot cur) = false ∧
         py_eq (asked_slot slot cur) cur = false ∧ incl_pubkey = false ∧
         sent w' = ("dump", {[ "slot" := asked_slot slot cur ]}) :: sent w1 ∧
         ∃ rr, send "dump" true {[ "slot" := asked_slot slot cur ]} w1
               = (Ok rr, w') ∧
               rr !! "addr" = Some v) ∨
        (negb (has_key st "addr") && py_eq cur (asked_slot slot cur) = false ∧
         py_eq (asked_slot slot cur) cur = true ∧
         ∃ n e2 rr w3 pubkey addr,
           pick_nonce (ext w1) = (Ok n, e2) ∧
           send "read" true {[ "nonce" := n ]}
                (MkWorld (attrs w1) e2 (sent w1)) = (Ok rr, w3) ∧
           recover_address st rr n = Ok (pubkey, addr) ∧
           second_derivation addr w3 w' ∧
           v = if incl_pubkey then VTuple [pubkey; addr] else addr))) ∧
  (∀ w0 st w1 slots cur n e2 rr w3 pubkey addr my_nonce e4 card_nonce
     rr2 w5 master_pubkey sig chain_code testnet,
     check_done false w w0 →
     send "status" true ∅ w0 = (Ok st, w1) →
     st !! "slots" = Some slots → py_first slots = Ok cur →
     negb (has_key st "addr") && py_eq cur (asked_slot slot cur) = false →
     py_eq (asked_slot slot cur) cur = true →
     pick_nonce (ext w1) = (Ok n, e2) →
     send "read" true {[ "nonce" := n ]} (MkWorld (attrs w1) e2 (sent w1))
       = (Ok rr, w3) →
     recover_address st rr n = Ok (pubkey, addr) →
     pick_nonce (ext w3) = (Ok my_nonce, e4) →
     attrs w3 !! "card_nonce" = Some card_nonce →
     send "derive" true {[ "nonce" := my_nonce ]}
          (MkWorld (attrs w3) e4 (sent w3)) = (Ok rr2, w5) →
     rr2 !! "master_pubkey" = Some master_pubkey →
     rr2 !! "sig" = Some sig →
     rr2 !! "chain_code" = Some chain_code →
     attrs w5 !! "is_testnet" = Some testnet →
     address false incl_pubkey slot w
       = (match verify_master_pubkey master_pubkey sig chain_code my_nonce
                  card_nonce with
          | Raise e => Raise e
          | Ok master_pub =>
              match verify_derive_address chain_code master_pub testnet with
              | Raise e => Raise e
              | Ok (derived, _) =>
                  if py_eq derived addr
                  then Ok (if incl_pubkey then VTuple [pubkey; addr]
                           else addr)
                  else Raise (ValueError
                                [Lit "card did not derive address as expected"])
              end
          end, w5)).
Proof.
  split.
  - intros v w'. split.
    + intros Hrun.
      destruct (address_ok_prefix _ _ _ _ _ _ Hrun)
        as (w0 & st & w1 & slots & cur & Hdone & Hst & Hslots & Hcur & Hfor).
      exists w0, st, w1, slots, cur.
      split; [exact Hdone|]. split; [exact Hst|]. split; [exact Hslots|].
      split; [exact Hcur|].
      destruct (address_for_slot_ok_inv _ _ _ _ _ _ _ Hfor)
        as [Hnone | [(Hc1 & Hc2 & Hincl & rr & Hdump & Ha) | Hcur_slot]].
      * left. exact Hnone.
      * right. left. split; [exact Hc1|]. split; [exact Hc2|].
        split; [exact Hincl|]. split; [|exists rr; auto].
        pose proof (send_sent "dump" true
                      {[ "slot" := asked_slot slot cur ]} w1) as Hsent.
        rewrite Hdump in Hsent. exact Hsent.
      * right. right. exact Hcur_slot.
    + intros (w0 & st & w1 & slots & cur & Hdone & Hst & Hslots & Hcur & Hcase).
      rewrite (address_run _ _ _ _ _ _ _ _ _ Hdone Hst Hslots Hcur).
      apply address_for_slot_ok_fwd.
      destruct Hcase as [Hnone | [(Hc1 & Hc2 & Hincl & _ & Hdump) | Hcur_slot]].
      * left. exact Hnone.
      * right. left. auto.
      * right. right. exact Hcur_slot.
  - intros w0 st w1 slots cur n e2 rr w3 pubkey addr my_nonce e4 card_nonce
      rr2 w5 master_pubkey sig chain_code testnet
      Hdone Hst Hslots Hcur Hc1 Hc2 Hn Hread Hrec Hmy Hcn Hderive Hmp Hsig
      Hcc Htn.
    rewrite (address_run _ _ _ _ _ _ _ _ _ Hdone Hst Hslots Hcur).
    exact (address_for_slot_derive incl_pubkey st cur (asked_slot slot cur)
             w1 w3 w5 n e2 rr pubkey addr my_nonce e4 card_nonce rr2
             master_pubkey sig chain_code testnet Hc1 Hc2 Hn Hread Hrec Hmy
             Hcn Hderive Hmp Hsig Hcc Htn).
Qed.

End AddressClaims.

(** C5 as stated does not hold.  On a session whose certificates are
    checked on the way, [address] is asked, in full mode, for slot 1 of a
    card whose current slot is 0.  It returns the 'addr' of the dump; the
    commands sent are the three of the certificate check, 'status' and
    'dump', so no 'read' and no 'derive': no second derivation was made
    and nothing was compared. *)
Lemma address_of_other_slot_unverified :
  let w := Demo.session (VBytes Demo.nonce16)
             [(0x9000%N, {[ "pubkey" := VBytes [2%N; 9%N] ]});
              (0x9000%N, {[ "cert_chain" := VList [] ]});
              (0x9000%N, {[ "auth_sig" := VBytes [1%N] ]});
              (0x9000%N, {[ "slots" := VList [VInt 0; VInt 3];
                            "addr" := VStr "bc1qcurrent" ]});
              (0x9000%N, {[ "slot" := VInt 1; "addr" := VStr "bc1qother" ]})] in
  (address false false (VInt 1) w).1 = Ok (VStr "bc1qother") ∧
  (sent (address false false (VInt 1) w).2).*1
    = ["dump"; "status"; "check"; "certs"; "status"].
Proof.
  cbv zeta. split; vm_compute; reflexivity.
Qed.

(** C5 as amended, on the scripted card, in full mode.  For the current
    slot, with the certificate check on the way: the address derived
    from the 'derive' response is returned when it equals the recovered
    one, and the call ends in the [ValueError] when it differs.  With a
    verification layer that rejects the signature over the master public
    key, the call ends in that exception although the derived address
    would equal the recovered one.  For slot 1 of a card whose current
    slot is 0, the 'addr' of the dump is returned. *)
Lemma address_verification_witness :
  let script (derived : string) : list (N * Args) :=
    [(0x9000%N, {[ "pubkey" := VBytes [2%N; 9%N] ]});
     (0x9000%N, {[ "cert_chain" := VList [] ]});
     (0x9000%N, {[ "auth_sig" := VBytes [1%N] ]});
     (0x9000%N, {[ "slots" := VList [VInt 0; VInt 3];
                   "addr" := VStr "bc1qcurrent" ]});
     (0x9000%N, {[ "pubkey" := VBytes [3%N; 5%N];
                   "card_nonce" := VBytes [6%N] ]});
     (0x9000%N, {[ "master_pubkey" := VBytes [2%N; 1%N];
                   "sig" := VBytes [7%N];
                   "chain_code" := VStr derived ]})] in
  let checked (script : list (N * Args)) : World (list (N * Args)) :=
    MkWorld (<[ "_certs_checked" := VBool true ]>
               (attrs (Demo.session (VBytes Demo.nonce16) [])))
            script [] in
  (address false false VNone
     (Demo.session (VBytes Demo.nonce16) (script "bc1qcurrent"))).1
    = Ok (VStr "bc1qcurrent") ∧
  (address false false VNone
     (Demo.session (VBytes Demo.nonce16) (script "bc1qforged"))).1
    = Raise (ValueError [Lit "card did not derive address as expected"]) ∧
  (@address _ untrusted false false VNone
     (checked (drop 3 (script "bc1qcurrent")))).1
    = Raise (ValueError [Lit "bad signature"]) ∧
  (address false false (VInt 1)
     (checked [(0x9000%N, {[ "slots" := VList [VInt 0; VInt 3];
                             "addr" := VStr "bc1qcurrent" ]});
               (0x9000%N, {[ "slot" := VInt 1;
                             "addr" := VStr "bc1qother" ]})])).1
    = Ok (VStr "bc1qother").
Proof.
  intros script checked.
  pose (st := {[ "slots" := VList [VInt 0; VInt 3];
                 "addr" := VStr "bc1qcurrent" ]} : Args).
  pose (rd := {[ "pubkey" := VBytes [3%N; 5%N];
                 "card_nonce" := VBytes [6%N] ]} : Args).
  pose (dv := λ derived : string,
          {[ "master_pubkey" := VBytes [2%N; 1%N]; "sig" := VBytes [7%N];
             "chain_code" := VStr derived ]} : Args).
  pose (run := λ derived : string,
    let w := Demo.session (VBytes Demo.nonce16) (script derived) in
    let w0 := (certificate_check w).2 in
    let w1 := (send "status" true ∅ w0).2 in
    let w3 := (send "read" true {[ "nonce" := VBytes Demo.nonce16 ]}
                 (MkWorld (attrs w1) (ext w1) (sent w1))).2 in
    let w5 := (send "derive" true {[ "nonce" := VBytes Demo.nonce16 ]}
                 (MkWorld (attrs w3) (ext w3) (sent w3))).2 in
    proj2 (address_verification false VNone w)
      w0 st w1 (VList [VInt 0; VInt 3]) (VInt 0)
      (VBytes Demo.nonce16) (ext w1) rd
      w3 (VBytes [3%N; 5%N]) (VStr "bc1qcurrent")
      (VBytes Demo.nonce16) (ext w3) (VBytes [6%N]) (dv derived)
      w5 (VBytes [2%N; 1%N]) (VBytes [7%N]) (VStr derived) (VBool false)).
  split; [|split; [|split]].
  - refine (f_equal fst (run "bc1qcurrent" _ _ _ _ _ _ _ _ _ _ _ _ _ _ _ _));
      try by_evaluation.
    exists (VBool false), (VBool false).
    split; [by_evaluation|]. split; [by_evaluation|]. split; [by_evaluation|].
    exists (VStr "factory root"). by_evaluation.
  - refine (f_equal fst (run "bc1qforged" _ _ _ _ _ _ _ _ _ _ _ _ _ _ _ _));
      try by_evaluation.
    exists (VBool false), (VBool false).
    split; [by_evaluation|]. split; [by_evaluation|]. split; [by_evaluation|].
    exists (VStr "factory root"). by_evaluation.
  - set (w := checked (drop 3 (script "bc1qcurrent"))).
    set (w1 := (@send _ untrusted "status" true ∅ w).2).
    set (w3 := (@send _ untrusted "read" true
                  {[ "nonce" := VBytes Demo.nonce16 ]}
                  (MkWorld (attrs w1) (ext w1) (sent w1))).2).
    set (w5 := (@send _ untrusted "derive" true
                  {[ "nonce" := VBytes Demo.nonce16 ]}
                  (MkWorld (attrs w3) (ext w3) (sent w3))).2).
    refine (f_equal fst
              (proj2 (@address_verification _ untrusted false VNone w)
                 w st w1 (VList [VInt 0; VInt 3]) (VInt 0)
                 (VBytes Demo.nonce16) (ext w1) rd
                 w3 (VBytes [3%N; 5%N]) (VStr "bc1qcurrent")
                 (VBytes Demo.nonce16) (ext w3) (VBytes [6%N])
                 (dv "bc1qcurrent")
                 w5 (VBytes [2%N; 1%N]) (VBytes [7%N]) (VStr "bc1qcurrent")
                 (VBool false) _ _ _ _ _ _ _ _ _ _ _ _ _ _ _ _));
      try by_evaluation.
    exists (VBool false), (VBool true).
    split; [by_evaluation|]. split; [by_evaluation|]. split; [by_evaluation|].
    reflexivity.
  - set (w := checked _).
    set (w1 := (send "status" true ∅ w).2).
    set (w2 := (send "dump" true {[ "slot" := VInt 1 ]} w1).2).
    refine (f_equal fst
              (proj2 (proj1 (address_verification false (VInt 1) w)
                        (VStr "bc1qother") w2) _)).
    exists w, st, w1, (VList [VInt 0; VInt 3]), (VInt 0).
    split.
    { exists (VBool false), (VBool true).
      split; [by_evaluation|]. split; [by_evaluation|].
      split; [by_evaluation|]. reflexivity. }
    split; [by_evaluation|]. split; [by_evaluation|]. split; [by_evaluation|].
    right. left.
    split; [by_evaluation|]. split; [by_evaluation|]. split; [reflexivity|].
    split; [by_evaluation|].
    exists {[ "slot" := VInt 1; "addr" := VStr "bc1qother" ]}.
    split; by_evaluation.
Defined.

(* ===================================================================== *)
(*  Further properties of the engine                                     *)
(* ===================================================================== *)

Section SendMore.
Context {Ext : Type} `{!Externals Ext}.

Lemma promote_error_of_bad_status sw (resp : Args) :
  sw ≠ SW_OKAY → is_Some (promote sw resp !! "error").
Proof.
  intros Hsw. unfold promote. apply N.eqb_neq in Hsw. rewrite Hsw. cbn.
  rewrite lookup_insert_ne by discriminate.
  destruct (has_key resp "error") eqn:Hk; cbn.
  - apply has_key_true in Hk. exact Hk.
  - rewrite lookup_insert_eq. eauto.
Qed.

Lemma send_ok_inv cmd args (w w' : World Ext) r :
  send cmd true args w = (Ok r, w') →
  ∃ e', tr_send cmd args (ext w) = (Ok (SW_OKAY, r), e') ∧
        r !! "error" = None ∧
        w' = after_send cmd args w SW_OKAY r e'.
Proof.
  intros Hrun.
  destruct (tr_send cmd args (ext w)) as [[[sw resp]|e] e'] eqn:Htr.
  - rewrite (send_run _ _ _ _ _ _ _ Htr) in Hrun.
    destruct (N.eq_dec sw SW_OKAY) as [->|Hsw].
    + assert (Hp : promote SW_OKAY resp = resp)
        by (unfold promote; rewrite N.eqb_refl; reflexivity).
      rewrite Hp in Hrun.
      destruct (resp !! "error") eqn:Herr; [discriminate|].
      injection Hrun as <- <-. eauto.
    + destruct (promote_error_of_bad_status sw resp Hsw) as [msg Hmsg].
      rewrite Hmsg in Hrun. discriminate.
  - rewrite (send_run_raise _ _ _ _ _ _ Htr) in Hrun. discriminate.
Qed.

(** A map that [send] returns with [raise_on_error] at its default is the
    card's own response, unchanged: the status word was [SW_OKAY] and the
    map has no 'error' entry. *)
Theorem send_returns_clean_response cmd args (w w' : World Ext) r :
  send cmd true args w = (Ok r, w') →
  ∃ e', tr_send cmd args (ext w) = (Ok (SW_OKAY, r), e') ∧
        r !! "error" = None ∧
        w' = after_send cmd args w SW_OKAY r e'.
Proof. apply send_ok_inv. Qed.

(** A response without 'card_nonce', be it a success or an error, leaves
    every attribute of the session as it was, the tracked nonce included;
    so does a transport that raises, whose exception [send] passes on. *)
Theorem send_without_nonce_keeps_session cmd roe args (w : World Ext) :
  (∀ sw resp e',
     tr_send cmd args (ext w) = (Ok (sw, resp), e') →
     resp !! "card_nonce" = None →
     attrs (send cmd roe args w).2 = attrs w) ∧
  (∀ e e',
     tr_send cmd args (ext w) = (Raise e, e') →
     send cmd roe args w
       = (Raise e, MkWorld (attrs w) e' ((cmd, args) :: sent w))).
Proof.
  split.
  - intros sw resp e' Htr Hn. rewrite (send_run _ _ _ _ _ _ _ Htr).
    cbn. rewrite Hn. reflexivity.
  - intros e e'. apply send_run_raise.
Qed.

End SendMore.

(** On the scripted card: the response of a successful 'status' comes
    back as it is. *)
Lemma send_returns_clean_response_witness :
  let resp : Args := {[ "proto" := VInt 1; "card_nonce" := VBytes [5%N] ]} in
  let w := Demo.session (VBytes Demo.nonce16) [(0x9000%N, resp)] in
  ∃ e', tr_send "status" ∅ (ext w) = (Ok (SW_OKAY, resp), e') ∧
        resp !! "error" = None ∧
        (send "status" true ∅ w).2 = after_send "status" ∅ w SW_OKAY resp e'.
Proof.
  intros resp w.
  apply (send_returns_clean_response "status" ∅ w (send "status" true ∅ w).2 resp).
  by_evaluation.
Defined.

(** On the scripted card: an error response without a nonce leaves the
    nonce of the session alone. *)
Lemma send_without_nonce_keeps_session_witness :
  let w := Demo.session (VBytes Demo.nonce16)
             [(0x6d00%N, {[ "error" := VStr "unknown command" ]})] in
  attrs (send "nfc" false ∅ w).2 = attrs w.
Proof.
  intros w.
  exact (proj1 (send_without_nonce_keeps_session "nfc" false ∅ w)
           0x6d00%N {[ "error" := VStr "unknown command" ]} []
           eq_refl eq_refl).
Defined.

Section FirstLookMore.
Context {Ext : Type} `{!Externals Ext}.

Lemma first_look_run (w w1 : World Ext) st proto pubkey ident ver active num
    nonce :
  send "status" true ∅ w = (Ok st, w1) →
  st !! "proto" = Some proto → py_eq proto (VInt 1) = true →
  st !! "pubkey" = Some pubkey →
  card_pubkey_to_ident pubkey = Ok ident →
  st !! "ver" = Some ver →
  unpack2 (dict_get st "slots" (VTuple [VInt 0; VInt 1])) = Ok (active, num) →
  attrs w1 !! "card_nonce" = Some nonce → truthy nonce = true →
  first_look w
    = (Ok tt, MkWorld (looked st pubkey ident ver active num (attrs w1))
                      (ext w1) (sent w1)).
Proof.
  intros Hst Hproto Hone Hpk Hid Hver Hslots Hn Ht.
  destruct (send_ok_inv _ _ _ _ _ Hst) as (e' & _ & Herr & _).
  apply has_key_false in Herr.
  unfold first_look, mbind, M_bind, bind, set_attr, get_attr, lift, assert_,
    ret, raise, dict_item.
  rewrite Hst. cbn beta iota zeta. rewrite Herr. cbn [negb].
  cbn beta iota zeta. rewrite Hproto. cbn beta iota zeta.
  rewrite Hone. cbn beta iota zeta. rewrite Hpk. cbn beta iota zeta.
  cbn [attrs ext sent]. rewrite lookup_insert_eq. cbn beta iota zeta.
  rewrite Hid. cbn beta iota zeta. rewrite Hver. cbn beta iota zeta.
  rewrite Hslots. cbn beta iota zeta. cbn [attrs ext sent].
  rewrite !(lookup_insert_ne _ _ "card_nonce") by discriminate.
  rewrite Hn. cbn beta iota zeta. rewrite Ht. reflexivity.
Qed.

Lemma first_look_ok_inv (w w' : World Ext) :
  first_look w = (Ok tt, w') →
  ∃ st w1 proto pubkey ident ver active num nonce,
    send "status" true ∅ w = (Ok st, w1) ∧
    st !! "proto" = Some proto ∧ py_eq proto (VInt 1) = true ∧
    st !! "pubkey" = Some pubkey ∧
    card_pubkey_to_ident pubkey = Ok ident ∧
    st !! "ver" = Some ver ∧
    unpack2 (dict_get st "slots" (VTuple [VInt 0; VInt 1])) = Ok (active, num) ∧
    attrs w1 !! "card_nonce" = Some nonce ∧ truthy nonce = true ∧
    w' = MkWorld (looked st pubkey ident ver active num (attrs w1))
                 (ext w1) (sent w1).
Proof.
  intros Hrun. unfold first_look in Hrun. rewrite run_bind in Hrun.
  destruct (send "status" true ∅ w) as [[st|e] w1] eqn:Hst; [|discriminate].
  exists st, w1.
  unfold mbind, M_bind, bind, set_attr, get_attr, lift, assert_, ret, raise,
    dict_item in Hrun.
  cbn beta iota zeta in Hrun.
  destruct (negb (has_key st "error"));
    cbn beta iota zeta in Hrun; [|discriminate].
  destruct (st !! "proto") as [proto|];
    cbn beta iota zeta in Hrun; [|discriminate].
  destruct (py_eq proto (VInt 1)) eqn:Hone;
    cbn beta iota zeta in Hrun; [|discriminate].
  destruct (st !! "pubkey") as [pubkey|];
    cbn beta iota zeta in Hrun; [|discriminate].
  cbn [attrs ext sent] in Hrun.
  rewrite lookup_insert_eq in Hrun. cbn beta iota zeta in Hrun.
  destruct (card_pubkey_to_ident pubkey) as [ident|] eqn:Hid;
    cbn beta iota zeta in Hrun; [|discriminate].
  destruct (st !! "ver") as [ver|];
    cbn beta iota zeta in Hrun; [|discriminate].
  destruct (unpack2 _) as [[active num]|] eqn:Hslots;
    cbn beta iota zeta in Hrun; [|discriminate].
  cbn [attrs ext sent] in Hrun.
  rewrite !(lookup_insert_ne _ _ "card_nonce") in Hrun by discriminate.
  destruct (attrs w1 !! "card_nonce") as [nonce|] eqn:Hn;
    cbn beta iota zeta in Hrun; [|discriminate].
  destruct (truthy nonce) eqn:Ht;
    cbn beta iota zeta in Hrun; [|discriminate].
  injection Hrun as <-.
  exists proto, pubkey, ident, ver, active, num, nonce.
  repeat (split; [first [reflexivity | assumption]|]). reflexivity.
Qed.

(** [first_look] returns exactly when the status command succeeds with a
    response whose 'proto' equals 1 and that has 'pubkey' and 'ver', the
    identity can be derived from the public key, 'slots' (or its default)
    unpacks into two values, and the session then holds a non-empty nonce;
    the session it leaves is the one after the status command with the ten
    attributes assigned. *)
Theorem first_look_returns_iff (w w' : World Ext) :
  first_look w = (Ok tt, w') ↔
  ∃ st w1 proto pubkey ident ver active num nonce,
    send "status" true ∅ w = (Ok st, w1) ∧
    st !! "proto" = Some proto ∧ py_eq proto (VInt 1) = true ∧
    st !! "pubkey" = Some pubkey ∧
    card_pubkey_to_ident pubkey = Ok ident ∧
    st !! "ver" = Some ver ∧
    unpack2 (dict_get st "slots" (VTuple [VInt 0; VInt 1])) = Ok (active, num) ∧
    attrs w1 !! "card_nonce" = Some nonce ∧ truthy nonce = true ∧
    w' = MkWorld (looked st pubkey ident ver active num (attrs w1))
                 (ext w1) (sent w1).
Proof.
  split; [apply first_look_ok_inv|].
  intros (st & w1 & proto & pubkey & ident & ver & active & num & nonce
          & Hst & Hproto & Hone & Hpk & Hid & Hver & Hslots & Hn & Ht & ->).
  eapply first_look_run; eassumption.
Qed.

(** A status response that has only what [first_look] insists on ('proto',
    'pubkey', 'ver') and none of the optional entries initialises a
    mainnet SATSCARD with slot 0 of 1, no birth height, no authentication
    delay and unchecked certificates. *)
Theorem first_look_defaults (w w1 : World Ext) st proto pubkey ident ver nonce :
  send "status" true ∅ w = (Ok st, w1) →
  st !! "proto" = Some proto → py_eq proto (VInt 1) = true →
  st !! "pubkey" = Some pubkey →
  card_pubkey_to_ident pubkey = Ok ident →
  st !! "ver" = Some ver →
  st !! "birth" = None → st !! "testnet" = None →
  st !! "auth_delay" = None → st !! "tapsigner" = None →
  st !! "slots" = None →
  attrs w1 !! "card_nonce" = Some nonce → truthy nonce = true →
  ∃ w', first_look w = (Ok tt, w') ∧
        attrs w' !! "birth_height" = Some VNone ∧
        attrs w' !! "is_testnet" = Some (VBool false) ∧
        attrs w' !! "auth_delay" = Some (VInt 0) ∧
        attrs w' !! "is_tapsigner" = Some (VBool false) ∧
        attrs w' !! "active_slot" = Some (VInt 0) ∧
        attrs w' !! "num_slots" = Some (VInt 1) ∧
        attrs w' !! "_certs_checked" = Some (VBool false).
Proof.
  intros Hst Hproto Hone Hpk Hid Hver Hb Htn Had Hts Hsl Hn Ht.
  eexists. split.
  - eapply first_look_run; try eassumption.
    unfold dict_get. rewrite Hsl. reflexivity.
  - cbn [attrs]. unfold looked, dict_get. rewrite Hb, Htn, Had, Hts. cbn.
    repeat split; by simplify_map_eq.
Qed.

(** A card that does not answer with protocol version 1 is refused: a
    status response without 'proto' ends [first_look] in a [KeyError],
    one with another version in the assertion error.  Nothing has been
    assigned by then: apart from the nonce that the status response may
    have brought, the attributes are as they were. *)
Theorem first_look_rejects_protocol (w w1 : World Ext) st :
  send "status" true ∅ w = (Ok st, w1) →
  (st !! "proto" = None → first_look w = (Raise (KeyError "proto"), w1)) ∧
  (∀ proto, st !! "proto" = Some proto → py_eq proto (VInt 1) = false →
     first_look w
       = (Raise (AssertionError [Lit "Unknown card protocol version"]), w1)) ∧
  (∀ k, k ≠ "card_nonce" → attrs w1 !! k = attrs w !! k).
Proof.
  intros Hst.
  destruct (send_ok_inv _ _ _ _ _ Hst) as (e' & _ & Herr & _).
  apply has_key_false in Herr.
  split; [|split].
  - intros Hp. unfold first_look. rewrite run_bind, Hst.
    rewrite run_bind, Herr. cbn [negb assert_ ret].
    rewrite !run_bind. unfold lift, dict_item. rewrite Hp. reflexivity.
  - intros proto Hp Hone. unfold first_look. rewrite run_bind, Hst.
    rewrite run_bind, Herr. cbn [negb assert_ ret].
    rewrite !run_bind. unfold lift, dict_item. rewrite Hp.
    rewrite !run_bind, Hone. reflexivity.
  - intros k Hk.
    exact (proj1 (keeps_send (λ k, k = "card_nonce") any_cmd "status" true ∅
                    eq_refl I w _ _ Hst) k Hk).
Qed.

(** The nonce that a [first_look] leaves is the 'card_nonce' of its
    status response when there is one and otherwise the nonce the session
    had before; it is never empty.  For a new card object, which has no
    nonce yet, construction therefore succeeds only if the first status
    response carries a non-empty 'card_nonce'. *)
Theorem first_look_nonce_source :
  (∀ (w w' : World Ext), first_look w = (Ok tt, w') →
     ∃ st w1 nonce,
       send "status" true ∅ w = (Ok st, w1) ∧
       attrs w' !! "card_nonce" = Some nonce ∧ truthy nonce = true ∧
       Some nonce = match st !! "card_nonce" with
                    | Some n => Some n
                    | None => attrs w !! "card_nonce"
                    end) ∧
  (∀ (transport : Ext) w', new_card transport = (Ok tt, w') →
     ∃ st w1 nonce,
       send "status" true ∅ (MkWorld ∅ transport []) = (Ok st, w1) ∧
       st !! "card_nonce" = Some nonce ∧ truthy nonce = true ∧
       attrs w' !! "card_nonce" = Some nonce).
Proof.
  assert (Hgen : ∀ (w w' : World Ext), first_look w = (Ok tt, w') →
     ∃ st w1 nonce,
       send "status" true ∅ w = (Ok st, w1) ∧
       attrs w' !! "card_nonce" = Some nonce ∧ truthy nonce = true ∧
       Some nonce = match st !! "card_nonce" with
                    | Some n => Some n
                    | None => attrs w !! "card_nonce"
                    end).
  { intros w w' Hrun.
    destruct (first_look_ok_inv _ _ Hrun)
      as (st & w1 & proto & pubkey & ident & ver & active & num & nonce
          & Hst & _ & _ & _ & _ & _ & _ & Hn & Ht & ->).
    exists st, w1, nonce. split; [exact Hst|]. split; [|split; [exact Ht|]].
    - cbn [attrs]. unfold looked.
      rewrite !(lookup_insert_ne _ _ "card_nonce") by discriminate. exact Hn.
    - destruct (send_ok_inv _ _ _ _ _ Hst) as (e' & _ & _ & ->).
      cbn [attrs after_send] in Hn.
      destruct (st !! "card_nonce") as [n|].
      + rewrite lookup_insert_eq in Hn. congruence.
      + congruence. }
  split; [exact Hgen|].
  intros transport w' Hrun. unfold new_card in Hrun.
  destruct (Hgen _ _ Hrun) as (st & w1 & nonce & Hst & Hn & Ht & Hsrc).
  exists st, w1, nonce. split; [exact Hst|].
  cbn [attrs] in Hsrc. rewrite lookup_empty in Hsrc.
  destruct (st !! "card_nonce") as [n|]; [|discriminate].
  injection Hsrc as <-. auto.
Qed.

(** After a [first_look] that returned, every attribute the methods read
    is there: no later call fails for a missing attribute. *)
Theorem first_look_sets_all_attributes (w w' : World Ext) :
  first_look w = (Ok tt, w') →
  Forall (λ k, is_Some (attrs w' !! k)) session_attributes.
Proof.
  intros Hrun.
  destruct (first_look_ok_inv _ _ Hrun)
    as (st & w1 & proto & pubkey & ident & ver & active & num & nonce
        & _ & _ & _ & _ & _ & _ & _ & Hn & _ & ->).
  cbn [attrs]. unfold looked, session_attributes.
  repeat constructor; simplify_map_eq; eauto.
Qed.

End FirstLookMore.

(** On the scripted card: a first look at a card with the minimal status
    returns, and the conditions of the characterisation hold. *)
Lemma first_look_returns_iff_witness :
  ∃ st w1 proto pubkey ident ver active num nonce,
    send "status" true ∅ fresh_card = (Ok st, w1) ∧
    st !! "proto" = Some proto ∧ py_eq proto (VInt 1) = true ∧
    st !! "pubkey" = Some pubkey ∧
    card_pubkey_to_ident pubkey = Ok ident ∧
    st !! "ver" = Some ver ∧
    unpack2 (dict_get st "slots" (VTuple [VInt 0; VInt 1])) = Ok (active, num) ∧
    attrs w1 !! "card_nonce" = Some nonce ∧ truthy nonce = true ∧
    (first_look fresh_card).2
      = MkWorld (looked st pubkey ident ver active num (attrs w1))
                (ext w1) (sent w1).
Proof.
  apply (proj1 (first_look_returns_iff fresh_card (first_look fresh_card).2)).
  by_evaluation.
Defined.

(** On the scripted card: the minimal status gives the defaults. *)
Lemma first_look_defaults_witness :
  ∃ w', first_look fresh_card = (Ok tt, w') ∧
        attrs w' !! "birth_height" = Some VNone ∧
        attrs w' !! "is_testnet" = Some (VBool false) ∧
        attrs w' !! "auth_delay" = Some (VInt 0) ∧
        attrs w' !! "is_tapsigner" = Some (VBool false) ∧
        attrs w' !! "active_slot" = Some (VInt 0) ∧
        attrs w' !! "num_slots" = Some (VInt 1) ∧
        attrs w' !! "_certs_checked" = Some (VBool false).
Proof.
  apply (first_look_defaults fresh_card (send "status" true ∅ fresh_card).2
           minimal_status (VInt 1) (VBytes [2%N; 9%N]) (VBytes [2%N; 9%N])
           (VStr "1.0.3") (VBytes Demo.nonce16));
    by_evaluation.
Defined.

(** On the scripted card: a card that reports protocol version 2. *)
Lemma first_look_rejects_protocol_witness :
  let w : World (list (N * Args)) :=
    MkWorld ∅ [(0x9000%N, <["proto" := VInt 2]> minimal_status)] [] in
  first_look w
    = (Raise (AssertionError [Lit "Unknown card protocol version"]),
       (send "status" true ∅ w).2).
Proof.
  intros w.
  refine (proj1 (proj2 (first_look_rejects_protocol w (send "status" true ∅ w).2
                          (<["proto" := VInt 2]> minimal_status) _))
            (VInt 2) _ _); by_evaluation.
Defined.

(** On the scripted card: the nonce of a new card object is the one of
    its first status response. *)
Lemma first_look_nonce_source_witness :
  ∃ st w1 nonce,
    send "status" true ∅ (MkWorld ∅ [(0x9000%N, minimal_status)] [])
      = (Ok st, w1) ∧
    st !! "card_nonce" = Some nonce ∧ truthy nonce = true ∧
    attrs (new_card [(0x9000%N, minimal_status)]).2 !! "card_nonce"
      = Some nonce.
Proof.
  apply (proj2 first_look_nonce_source [(0x9000%N, minimal_status)]
           (new_card [(0x9000%N, minimal_status)]).2).
  by_evaluation.
Defined.

(** On the scripted card: all attributes are set after the first look. *)
Lemma first_look_sets_all_attributes_witness :
  Forall (λ k, is_Some (attrs (first_look fresh_card).2 !! k))
    session_attributes.
Proof.
  apply (first_look_sets_all_attributes fresh_card). by_evaluation.
Defined.

Section VariantGuards.
Context {Ext : Type} `{!Externals Ext} `{!PathHelpers}.

Lemma run_assert_tapsigner {A} (k : M Ext A) (w : World Ext) v :
  attrs w !! "is_tapsigner" = Some v →
  (is_tapsigner ← get_attr "is_tapsigner";
   assert_ (truthy is_tapsigner) [];; k) w
  = if truthy v then k w else (Raise (AssertionError []), w).
Proof.
  intros Ha. rewrite run_bind, (run_get_attr _ _ _ Ha).
  rewrite run_bind. destruct (truthy v); reflexivity.
Qed.

Lemma run_refuse_tapsigner {A} (k : M Ext A) (w : World Ext) v :
  attrs w !! "is_tapsigner" = Some v → truthy v = true →
  (is_tapsigner ← get_attr "is_tapsigner";
   assert_ (negb (truthy is_tapsigner)) [];; k) w
  = (Raise (AssertionError []), w).
Proof.
  intros Ha Ht. rewrite run_bind, (run_get_attr _ _ _ Ha).
  rewrite run_bind, Ht. reflexivity.
Qed.

(** The SATSCARD methods refuse a TAPSIGNER at once: on a session whose
    [is_tapsigner] is true, [address], [unseal_slot], [get_privkey] and
    [get_slot_usage] end in an assertion error with nothing sent and the
    session as it was. *)
Theorem satscard_methods_refuse_tapsigner (w : World Ext) v :
  attrs w !! "is_tapsigner" = Some v → truthy v = true →
  (∀ faster incl_pubkey slot,
     address faster incl_pubkey slot w = (Raise (AssertionError []), w)) ∧
  (∀ cvc, unseal_slot cvc w = (Raise (AssertionError []), w)) ∧
  (∀ cvc slot, get_privkey cvc slot w = (Raise (AssertionError []), w)) ∧
  (∀ slot cvc, get_slot_usage slot cvc w = (Raise (AssertionError []), w)).
Proof.
  intros Ha Ht. repeat split; intros.
  - unfold address. apply (run_refuse_tapsigner _ _ _ Ha Ht).
  - unfold unseal_slot. apply (run_refuse_tapsigner _ _ _ Ha Ht).
  - unfold get_privkey. apply (run_refuse_tapsigner _ _ _ Ha Ht).
  - unfold get_slot_usage. apply (run_refuse_tapsigner _ _ _ Ha Ht).
Qed.

(** The TAPSIGNER methods refuse a SATSCARD at once: on a session whose
    [is_tapsigner] is false, [get_derivation], [set_derivation],
    [get_xfp], [get_xpub] and [make_backup] end in an assertion error with
    nothing sent, no path parsed and the session as it was. *)
Theorem tapsigner_methods_refuse_satscard (w : World Ext) v :
  attrs w !! "is_tapsigner" = Some v → truthy v = false →
  get_derivation w = (Raise (AssertionError []), w) ∧
  (∀ path cvc, set_derivation path cvc w = (Raise (AssertionError []), w)) ∧
  (∀ cvc, get_xfp cvc w = (Raise (AssertionError []), w)) ∧
  (∀ cvc master, get_xpub cvc master w = (Raise (AssertionError []), w)) ∧
  (∀ cvc, make_backup cvc w = (Raise (AssertionError []), w)).
Proof.
  intros Ha Ht. repeat split; intros.
  - unfold get_derivation. rewrite (run_assert_tapsigner _ _ _ Ha), Ht. done.
  - unfold set_derivation. rewrite (run_assert_tapsigner _ _ _ Ha), Ht. done.
  - unfold get_xfp. rewrite (run_assert_tapsigner _ _ _ Ha), Ht. done.
  - unfold get_xpub. rewrite (run_assert_tapsigner _ _ _ Ha), Ht. done.
  - unfold make_backup. rewrite (run_assert_tapsigner _ _ _ Ha), Ht. done.
Qed.

(** [get_privkey] hands out a key only if the authenticated dump carries
    'privkey', and then it is that entry XORed with the session key.
    Without the entry it tells three failures apart, in this order: the
    slot is not used yet ([used == False]), the slot is still sealed
    ([sealed == True]), or the state of the slot cannot be told. *)
Theorem get_privkey_cases cvc slot (w w1 : World Ext) is_ts ses_key resp :
  attrs w !! "is_tapsigner" = Some is_ts → truthy is_ts = false →
  send_auth "dump" cvc {[ "slot" := slot ]} w = (Ok (ses_key, resp), w1) →
  (∀ privkey, resp !! "privkey" = Some privkey →
     get_privkey cvc slot w
       = (xor_bytes ses_key privkey, w1)) ∧
  (resp !! "privkey" = None →
     get_privkey cvc slot w
       = (Raise (RuntimeError
            (if py_eq (dict_get resp "used" VNone) (VBool false)
             then [Lit "That slot ("; Fmt slot;
                   Lit ") is not yet used (no key yet)"]
             else if py_eq (dict_get resp "sealed" VNone) (VBool true)
             then [Lit "That slot ("; Fmt slot; Lit ") is not yet unsealed."]
             else [Lit "Not sure of the key for that slot ("; Fmt slot;
                   Lit ")."])), w1)).
Proof.
  intros Ha Ht Hdump.
  assert (Hrun : get_privkey cvc slot w =
    (if negb (has_key resp "privkey") then
       if py_eq (dict_get resp "used" VNone) (VBool false) then
         raise (RuntimeError [Lit "That slot ("; Fmt slot;
                              Lit ") is not yet used (no key yet)"])
       else if py_eq (dict_get resp "sealed" VNone) (VBool true) then
         raise (RuntimeError [Lit "That slot ("; Fmt slot;
                              Lit ") is not yet unsealed."])
       else
         raise (RuntimeError [Lit "Not sure of the key for that slot (";
                              Fmt slot; Lit ")."])
     else
       privkey ← lift (dict_item resp "privkey");
       lift (xor_bytes ses_key privkey)) w1).
  { unfold get_privkey. rewrite (run_assert_not_tapsigner _ _ _ Ha Ht).
    rewrite run_bind, Hdump. reflexivity. }
  split.
  - intros privkey Hp. rewrite Hrun.
    assert (Hk : has_key resp "privkey" = true) by (apply has_key_true; eauto).
    rewrite Hk. cbn [negb]. rewrite run_bind, (run_dict_item _ _ _ _ Hp).
    reflexivity.
  - intros Hp. rewrite Hrun. apply has_key_false in Hp. rewrite Hp. cbn [negb].
    destruct (py_eq (dict_get resp "used" VNone) (VBool false)); [reflexivity|].
    destruct (py_eq (dict_get resp "sealed" VNone) (VBool true)); reflexivity.
Qed.

(** [set_derivation] refuses a path with a component that is not
    hardened before it draws a nonce or sends anything; for a hardened
    path it sends 'derive' through [send_auth] with the parsed path and a
    fresh nonce, and returns the length of the path with the 'chain_code'
    and 'pubkey' of the response. *)
Theorem set_derivation_cases path cvc (w : World Ext) is_ts np hardened :
  attrs w !! "is_tapsigner" = Some is_ts → truthy is_ts = true →
  str2path path = Ok np → all_hardened np = Ok hardened →
  (truthy hardened = false →
     set_derivation path cvc w
       = (Raise (ValueError [Lit "All path components must be hardened"]), w)) ∧
  (truthy hardened = true →
     ∀ n e1 key resp w2 len chain_code pubkey,
       pick_nonce (ext w) = (Ok n, e1) →
       send_auth "derive" cvc {[ "path" := np; "nonce" := n ]}
                 (MkWorld (attrs w) e1 (sent w)) = (Ok (key, resp), w2) →
       py_len np = Ok len →
       resp !! "chain_code" = Some chain_code →
       resp !! "pubkey" = Some pubkey →
       set_derivation path cvc w = (Ok (len, chain_code, pubkey), w2)).
Proof.
  intros Ha Ht Hp Hh.
  assert (Hrun : set_derivation path cvc w =
    (if negb (truthy hardened)
     then raise (ValueError [Lit "All path components must be hardened"])
     else
       n ← ext_call pick_nonce;
       '(_, resp) ← send_auth "derive" cvc {[ "path" := np; "nonce" := n ]};
       len ← lift (py_len np);
       chain_code ← lift (dict_item resp "chain_code");
       pubkey ← lift (dict_item resp "pubkey");
       ret (len, chain_code, pubkey)) w).
  { unfold set_derivation. rewrite (run_assert_tapsigner _ _ _ Ha), Ht.
    rewrite run_bind. unfold lift at 1. rewrite Hp.
    rewrite run_bind. unfold lift at 1. rewrite Hh. reflexivity. }
  split.
  - intros Hf. rewrite Hrun, Hf. reflexivity.
  - intros Hy n e1 key resp w2 len chain_code pubkey Hn Hs Hl Hc Hk.
    rewrite Hrun, Hy. cbn [negb].
    rewrite run_bind. unfold ext_call at 1. rewrite Hn.
    rewrite run_bind, Hs. cbn beta iota.
    rewrite run_bind. unfold lift at 1. rewrite Hl.
    rewrite run_bind, (run_dict_item _ _ _ _ Hc).
    rewrite run_bind, (run_dict_item _ _ _ _ Hk). reflexivity.
Qed.

(** [get_derivation] answers [None], and does not raise, when the status
    of the card has no 'path' yet or has [None] there; otherwise it
    renders the path.  It sends the one 'status' command. *)
Theorem get_derivation_cases (w w1 : World Ext) is_ts st :
  attrs w !! "is_tapsigner" = Some is_ts → truthy is_ts = true →
  send "status" true ∅ w = (Ok st, w1) →
  (st !! "path" = None ∨ st !! "path" = Some VNone →
     get_derivation w = (Ok VNone, w1)) ∧
  (∀ path, st !! "path" = Some path → path ≠ VNone →
     get_derivation w = (path2str path, w1)) ∧
  sent w1 = ("status", ∅) :: sent w.
Proof.
  intros Ha Ht Hst.
  assert (Hrun : get_derivation w =
    (match dict_get st "path" VNone with
     | VNone => ret VNone
     | _ => lift (path2str (dict_get st "path" VNone))
     end) w1).
  { unfold get_derivation. rewrite (run_assert_tapsigner _ _ _ Ha), Ht.
    rewrite run_bind, Hst. reflexivity. }
  split; [|split].
  - intros [Hp | Hp]; rewrite Hrun; unfold dict_get; rewrite Hp; reflexivity.
  - intros path Hp Hne. rewrite Hrun. unfold dict_get. rewrite Hp. cbn.
    destruct path; try reflexivity. congruence.
  - pose proof (send_sent "status" true ∅ w) as Hs. rewrite Hst in Hs.
    exact Hs.
Qed.

End VariantGuards.

(** On the scripted card: a TAPSIGNER session refuses the four SATSCARD
    methods and the card is not contacted. *)
Lemma satscard_methods_refuse_tapsigner_witness :
  let w := DemoPaths.tapsigner [(0x9000%N, ∅)] in
  address false false VNone w = (Raise (AssertionError []), w) ∧
  unseal_slot (VBytes [49; 50; 51; 52; 53; 54]%N) w
    = (Raise (AssertionError []), w) ∧
  get_privkey VNone (VInt 0) w = (Raise (AssertionError []), w) ∧
  get_slot_usage (VInt 0) VNone w = (Raise (AssertionError []), w).
Proof.
  intros w.
  destruct (satscard_methods_refuse_tapsigner w (VBool true) eq_refl eq_refl)
    as (Haddr & Hunseal & Hpriv & Husage).
  split; [apply Haddr|]. split; [apply Hunseal|].
  split; [apply Hpriv | apply Husage].
Defined.

(** On the scripted card: a SATSCARD session refuses the five TAPSIGNER
    methods and the card is not contacted. *)
Lemma tapsigner_methods_refuse_satscard_witness :
  let w := Demo.session (VBytes Demo.nonce16) [(0x9000%N, ∅)] in
  get_derivation w = (Raise (AssertionError []), w) ∧
  set_derivation (VList []) VNone w = (Raise (AssertionError []), w) ∧
  get_xfp VNone w = (Raise (AssertionError []), w) ∧
  get_xpub VNone (VBool false) w = (Raise (AssertionError []), w) ∧
  make_backup VNone w = (Raise (AssertionError []), w).
Proof.
  intros w.
  destruct (tapsigner_methods_refuse_satscard w (VBool false) eq_refl eq_refl)
    as (Hget & Hset & Hxfp & Hxpub & Hbackup).
  split; [apply Hget|]. split; [apply Hset|]. split; [apply Hxfp|].
  split; [apply Hxpub | apply Hbackup].
Defined.

(** On the scripted card, with the code 123456: an unsealed slot gives
    its key unmasked, and a sealed slot is reported as not yet unsealed. *)
Lemma get_privkey_cases_witness :
  let cvc := VBytes [49; 50; 51; 52; 53; 54]%N in
  let w := Demo.session (VBytes Demo.nonce16)
             [(0x9000%N, {[ "privkey" := VBytes (replicate 32 0xff%N) ]})] in
  let w' := Demo.session (VBytes Demo.nonce16)
              [(0x9000%N, {[ "sealed" := VBool true ]})] in
  (get_privkey cvc (VInt 0) w).1 = Ok (VBytes (replicate 32 0xa5%N)) ∧
  (get_privkey cvc (VInt 0) w').1
    = Raise (RuntimeError [Lit "That slot ("; Fmt (VInt 0);
                           Lit ") is not yet unsealed."]).
Proof.
  intros cvc w w'.
  pose (dump := send_auth "dump" cvc {[ "slot" := VInt 0 ]}).
  assert (H1 : dump w = (Ok (VBytes Demo.key32,
                             {[ "privkey" := VBytes (replicate 32 0xff%N) ]}),
                         (dump w).2)) by by_evaluation.
  assert (H2 : dump w' = (Ok (VBytes Demo.key32, {[ "sealed" := VBool true ]}),
                          (dump w').2)) by by_evaluation.
  split.
  - exact (f_equal fst
             (proj1 (get_privkey_cases cvc (VInt 0) w _ (VBool false) _ _
                       eq_refl eq_refl H1)
                (VBytes (replicate 32 0xff%N)) eq_refl)).
  - exact (f_equal fst
             (proj2 (get_privkey_cases cvc (VInt 0) w' _ (VBool false) _ _
                       eq_refl eq_refl H2) eq_refl)).
Defined.

(** On the scripted card: the path 84'/1 has a component that is not
    hardened and is refused; the card is not contacted. *)
Lemma set_derivation_cases_witness :
  let w := DemoPaths.tapsigner [(0x9000%N, ∅)] in
  set_derivation (VList [VInt 0x80000054; VInt 1]) VNone w
    = (Raise (ValueError [Lit "All path components must be hardened"]), w).
Proof.
  intros w.
  exact (proj1 (set_derivation_cases (VList [VInt 0x80000054; VInt 1]) VNone w
                  (VBool true) (VList [VInt 0x80000054; VInt 1]) (VBool false)
                  eq_refl eq_refl eq_refl eq_refl) eq_refl).
Defined.

(** On the scripted card: a TAPSIGNER that has picked no key yet has no
    derivation. *)
Lemma get_derivation_cases_witness :
  let w := DemoPaths.tapsigner [(0x9000%N, {[ "tapsigner" := VBool true ]})] in
  (get_derivation w).1 = Ok VNone.
Proof.
  intros w.
  assert (Hst : send "status" true ∅ w
                = (Ok {[ "tapsigner" := VBool true ]}, (send "status" true ∅ w).2))
    by by_evaluation.
  exact (f_equal fst
           (proj1 (get_derivation_cases w _ (VBool true) _ eq_refl eq_refl Hst)
              (or_introl eq_refl))).
Defined.

Section AddressMore.
Context {Ext : Type} `{!Externals Ext}.

Lemma address_faster_evolves incl_pubkey slot (w w' : World Ext) r :
  address true incl_pubkey slot w = (r, w') →
  evolves (λ k, k = "card_nonce") faster_cmd w w'.
Proof.
  intros Hrun. unfold address in Hrun.
  rewrite run_bind in Hrun. unfold get_attr at 1 in Hrun.
  destruct (attrs w !! "is_tapsigner") as [ts|];
    [|injection Hrun as <- <-; apply evolves_refl].
  rewrite run_bind in Hrun.
  destruct (truthy ts); cbn [negb assert_] in Hrun;
    [injection Hrun as <- <-; apply evolves_refl|].
  cbn [ret] in Hrun.
  rewrite run_bind in Hrun. unfold get_attr at 1 in Hrun.
  destruct (attrs w !! "_certs_checked") as [ck|];
    [|injection Hrun as <- <-; apply evolves_refl].
  cbn [negb] in Hrun. rewrite andb_false_r in Hrun.
  rewrite run_bind in Hrun. cbn [ret] in Hrun.
  revert Hrun.
  lazymatch goal with
  | |- ?m w = _ → _ =>
      assert (Hk : keeps (λ k, k = "card_nonce") faster_cmd m)
        by (repeat keeps_step; try solve [unfold faster_cmd; auto 6])
  end.
  apply Hk.
Qed.

(** In faster mode [address] checks no certificates and derives nothing:
    whatever the state of the certificate flag, the only commands it sends
    are among 'status', 'dump' and 'read', and the only attribute it may
    change is the nonce. *)
Theorem address_faster_commands incl_pubkey slot (w w' : World Ext) r :
  address true incl_pubkey slot w = (r, w') →
  evolves (λ k, k = "card_nonce") faster_cmd w w'.
Proof. apply address_faster_evolves. Qed.

(** In full mode with unchecked certificates, a certificate check that
    fails ends [address] with the exception of the check: no further
    command is sent and no address is returned. *)
Theorem address_stops_on_failed_check incl_pubkey slot (w w0 : World Ext)
    ts ck e :
  attrs w !! "is_tapsigner" = Some ts → truthy ts = false →
  attrs w !! "_certs_checked" = Some ck → truthy ck = false →
  certificate_check w = (Raise e, w0) →
  address false incl_pubkey slot w = (Raise e, w0).
Proof.
  intros Hts Hnot Hck Hf Hcert. unfold address.
  rewrite (run_assert_not_tapsigner _ _ _ Hts Hnot).
  rewrite run_bind, (run_get_attr _ _ _ Hck), Hf. cbn [negb andb].
  rewrite run_bind, run_bind, Hcert. reflexivity.
Qed.

(** When the certificates need no check and the status shows no 'addr'
    for the current slot, [address] answers [None] after the one status
    command.  When another slot is asked for, it sends the dump of that
    slot and answers with its 'addr'; asking for the public key as well is
    refused with an assertion error, but only after the dump was sent. *)
Theorem address_early_exits faster incl_pubkey slot (w w1 : World Ext)
    ts ck st slots cur :
  attrs w !! "is_tapsigner" = Some ts → truthy ts = false →
  attrs w !! "_certs_checked" = Some ck →
  negb (truthy ck) && negb faster = false →
  send "status" true ∅ w = (Ok st, w1) →
  st !! "slots" = Some slots → py_first slots = Ok cur →
  let slot' := match slot with VNone => cur | _ => slot end in
  (st !! "addr" = None → py_eq cur slot' = true →
     address faster incl_pubkey slot w = (Ok VNone, w1)) ∧
  (negb (has_key st "addr") && py_eq cur slot' = false →
   py_eq slot' cur = false →
   ∀ rr w2, send "dump" true {[ "slot" := slot' ]} w1 = (Ok rr, w2) →
     address faster incl_pubkey slot w
       = (if incl_pubkey
          then Raise (AssertionError
                        [Lit "can only get pubkey on current slot"])
          else dict_item rr "addr", w2)).
Proof.
  intros Hts Hnot Hck Hskip Hst Hslots Hcur slot'.
  assert (Hrun : address faster incl_pubkey slot w =
    (if negb (has_key st "addr") && py_eq cur slot' then ret VNone
     else if negb (py_eq slot' cur) then
       rr ← send "dump" true {[ "slot" := slot' ]};
       assert_ (negb incl_pubkey) [Lit "can only get pubkey on current slot"];;
       lift (dict_item rr "addr")
     else
       n ← ext_call pick_nonce;
       rr ← send "read" true {[ "nonce" := n ]};
       '(pubkey, addr) ← lift (recover_address st rr n);
       (if negb faster then
          my_nonce ← ext_call pick_nonce;
          card_nonce ← get_attr "card_nonce";
          rr ← send "derive" true {[ "nonce" := my_nonce ]};
          master_pubkey ← lift (dict_item rr "master_pubkey");
          sig ← lift (dict_item rr "sig");
          chain_code ← lift (dict_item rr "chain_code");
          master_pub ← lift (verify_master_pubkey master_pubkey sig chain_code
                                                   my_nonce card_nonce);
          chain_code ← lift (dict_item rr "chain_code");
          testnet ← get_attr "is_testnet";
          '(derived_addr, _) ← lift (verify_derive_address chain_code
                                        master_pub testnet);
          if negb (py_eq derived_addr addr)
          then raise (ValueError
                        [Lit "card did not derive address as expected"])
          else ret tt
        else ret tt);;
       if incl_pubkey then ret (VTuple [pubkey; addr]) else ret addr) w1).
  { unfold address. rewrite (run_assert_not_tapsigner _ _ _ Hts Hnot).
    rewrite run_bind, (run_get_attr _ _ _ Hck), Hskip.
    rewrite run_bind. cbn [ret].
    rewrite run_bind, Hst.
    rewrite run_bind, (run_dict_item _ _ _ _ Hslots).
    rewrite run_bind. unfold lift at 1. rewrite Hcur. reflexivity. }
  split.
  - intros Ha Hc. rewrite Hrun. apply has_key_false in Ha.
    rewrite Ha, Hc. reflexivity.
  - intros Hc1 Hc2 rr w2 Hdump. rewrite Hrun, Hc1, Hc2. cbn [negb].
    rewrite run_bind, Hdump. rewrite run_bind.
    destruct incl_pubkey; reflexivity.
Qed.

(** [certificate_check] sends 'status', 'certs' and 'check' in this
    order, the last with a fresh nonce, and hands the three responses
    with the nonce to [verify_certs].  If the verification returns, so
    does the check, with the flag set; if it raises, the exception is
    passed on and the flag is as before, though the three commands have
    been sent. *)
Theorem certificate_check_run (w w1 w2 w4 : World Ext) st certs n e3 check :
  send "status" true ∅ w = (Ok st, w1) →
  send "certs" true ∅ w1 = (Ok certs, w2) →
  pick_nonce (ext w2) = (Ok n, e3) →
  send "check" true {[ "nonce" := n ]} (MkWorld (attrs w2) e3 (sent w2))
    = (Ok check, w4) →
  certificate_check w
    = match verify_certs st check certs n with
      | Ok rv => (Ok rv, MkWorld (<["_certs_checked" := VBool true]> (attrs w4))
                                 (ext w4) (sent w4))
      | Raise e => (Raise e, w4)
      end ∧
  sent w4 = ("check", {[ "nonce" := n ]}) :: ("certs", ∅) :: ("status", ∅)
              :: sent w ∧
  attrs w4 !! "_certs_checked" = attrs w !! "_certs_checked".
Proof.
  intros Hst Hcerts Hn Hcheck. split; [|split].
  - unfold certificate_check.
    rewrite run_bind, Hst. rewrite run_bind, Hcerts.
    rewrite run_bind. unfold ext_call at 1. rewrite Hn.
    rewrite run_bind, Hcheck.
    rewrite run_bind. unfold lift at 1.
    destruct (verify_certs st check certs n); reflexivity.
  - pose proof (send_sent "status" true ∅ w) as H1. rewrite Hst in H1.
    pose proof (send_sent "certs" true ∅ w1) as H2. rewrite Hcerts in H2.
    pose proof (send_sent "check" true {[ "nonce" := n ]}
                  (MkWorld (attrs w2) e3 (sent w2))) as H3.
    rewrite Hcheck in H3. cbn in H1, H2, H3. rewrite H3, H2, H1. reflexivity.
  - assert (Hk : ∀ cmd args (wa wb : World Ext) r,
              send cmd true args wa = (r, wb) →
              attrs wb !! "_certs_checked" = attrs wa !! "_certs_checked").
    { intros cmd args wa wb r Hs.
      exact (proj1 (keeps_send (λ k, k = "card_nonce") any_cmd cmd true args
                      eq_refl I wa _ _ Hs) "_certs_checked"
               ltac:(discriminate)). }
    rewrite (Hk _ _ _ _ _ Hcheck). cbn [attrs].
    rewrite (Hk _ _ _ _ _ Hcerts). apply (Hk _ _ _ _ _ Hst).
Qed.

End AddressMore.

Section AuthMore.
Context {Ext : Type} `{!Externals Ext}.

(** The authentication fields cannot be overridden by the caller: for a
    command that masks no argument, what [send_auth] transmits has every
    entry of the authenticator's bundle, also under a key that the caller
    passed too, and the caller's value under every other key. *)
Theorem send_auth_fields_take_precedence cmd cvc args (w : World Ext)
    nonce pubkey sk auth e' :
  truthy cvc = true →
  attrs w !! "card_nonce" = Some nonce →
  attrs w !! "card_pubkey" = Some pubkey →
  calc_xcvc cmd nonce pubkey cvc (ext w) = (Ok (sk, auth), e') →
  kw_plain (auth ∪ args) →
  cmd ≠ "sign" → cmd ≠ "change" →
  ∃ sent_args,
    transmits (send_auth cmd cvc args) w cmd sent_args ∧
    (∀ k v, auth !! k = Some v → sent_args !! k = Some v) ∧
    (∀ k, auth !! k = None → sent_args !! k = args !! k).
Proof.
  intros Ht Hn Hp Hx Hkw Hs Hc. exists (auth ∪ args). split; [|split].
  - apply transmits_send_then
      with (w1 := MkWorld (attrs w) e' (sent w)) (k := λ resp, mret (sk, resp));
      [|reflexivity|reflexivity].
    rewrite (send_auth_keyed cmd cvc args w _ _ _ _ _ Ht Hn Hp Hx).
    rewrite !bool_decide_eq_false_2 by done.
    rewrite run_bind. cbn [mret M_ret ret].
    rewrite send_kw_plain by done. reflexivity.
  - intros k v Hk. apply lookup_union_Some_l, Hk.
  - intros k Hk. apply lookup_union_r, Hk.
Qed.

(** [change_cvc] never sends the new secret code in the clear: with a new
    code of 6 to 32 bytes and an old code that the authenticator accepts,
    the one command it sends is 'change' with the authentication fields
    and, as 'data', the new code XORed with as many leading bytes of the
    session key. *)
Theorem change_cvc_sends_masked_code old_cvc new_cvc (w : World Ext)
    n data nonce pubkey sk auth e' :
  py_len new_cvc = Ok n → 6 ≤ n ≤ 32 →
  force_bytes new_cvc = Ok (VBytes data) →
  truthy old_cvc = true →
  attrs w !! "card_nonce" = Some nonce →
  attrs w !! "card_pubkey" = Some pubkey →
  calc_xcvc "change" nonce pubkey old_cvc (ext w) = (Ok (VBytes sk, auth), e') →
  auth !! "data" = None →
  kw_plain auth →
  (length data ≤ length sk)%nat →
  transmits (change_cvc old_cvc new_cvc) w "change"
    (<["data" := VBytes (zip_with N.lxor data (take (length data) sk))]> auth).
Proof.
  intros Hlen Hrange Hfb Ht Hn Hp Hx Hnd Hkw Hle.
  assert (Hb : (6 <=? n) && (n <=? 32) = true).
  { apply andb_true_intro. split; apply Z.leb_le; lia. }
  assert (Hd : (auth ∪ ({[ "data" := VBytes data ]} : Args)) !! "data"
               = Some (VBytes data)).
  { rewrite lookup_union_r by exact Hnd. apply lookup_singleton_eq. }
  assert (Hins : <["data" := VBytes (zip_with N.lxor data
                                       (take (length data) sk))]>
                   (auth ∪ ({[ "data" := VBytes data ]} : Args))
                 = <["data" := VBytes (zip_with N.lxor data
                                         (take (length data) sk))]> auth).
  { apply map_eq. intros k. destruct (decide (k = "data")) as [->|Hk].
    - rewrite !lookup_insert_eq. reflexivity.
    - rewrite !lookup_insert_ne by congruence.
      rewrite lookup_union_l; [reflexivity|].
      apply lookup_singleton_ne. congruence. }
  apply transmits_send_then
    with (w1 := MkWorld (attrs w) e' (sent w))
         (k := λ resp, mret (VBytes sk, resp) ≫= λ _, ret tt);
    [|reflexivity|].
  - unfold change_cvc.
    rewrite run_bind. unfold lift at 1. rewrite Hlen.
    rewrite run_bind, Hb. cbn [assert_ ret].
    rewrite run_bind. unfold lift at 1. rewrite Hfb.
    rewrite run_bind.
    rewrite (send_auth_keyed "change" old_cvc _ w _ _ _ _ _ Ht Hn Hp Hx).
    rewrite bool_decide_eq_false_2, bool_decide_eq_true_2 by done.
    rewrite run_bind, run_bind, (run_dict_item _ _ _ _ Hd).
    rewrite run_bind, (run_dict_item _ _ _ _ Hd).
    rewrite run_bind. unfold lift at 1. cbn [py_len].
    rewrite run_bind. unfold lift at 1. cbn [slice_to].
    rewrite Nat2Z.id.
    rewrite run_bind. unfold lift at 1.
    rewrite xor_bytes_bytes by (rewrite length_take; lia).
    cbn [mret M_ret ret]. rewrite Hins.
    rewrite send_kw_plain by (apply kw_plain_insert; done).
    rewrite !run_bind.
    destruct (send "change" true _ _) as [[r|e] w2]; reflexivity.
  - intros r w'. reflexivity.
Qed.

End AuthMore.

(** On the scripted card: a faster [address] for the current slot sends
    'status' and 'read' and leaves the unchecked certificate flag as it
    is. *)
Lemma address_faster_commands_witness :
  let w := Demo.session (VBytes Demo.nonce16)
             [(0x9000%N, {[ "slots" := VList [VInt 0; VInt 1];
                            "addr" := VStr "bc1qcurrent" ]});
              (0x9000%N, {[ "pubkey" := VBytes [3%N; 5%N] ]})] in
  (address true false VNone w).1 = Ok (VStr "bc1qcurrent") ∧
  evolves (λ k, k = "card_nonce") faster_cmd w (address true false VNone w).2.
Proof.
  intros w. split; [by_evaluation|].
  apply (address_faster_commands false VNone w _ (address true false VNone w).1).
  by_evaluation.
Defined.

(** On the scripted card: the public key of slot 1 is asked for while
    slot 0 is current; the call is refused, after the dump of slot 1. *)
Lemma address_early_exits_witness :
  let w := Demo.session (VBytes Demo.nonce16)
             [(0x9000%N, {[ "slots" := VList [VInt 0; VInt 3];
                            "addr" := VStr "bc1qcurrent" ]});
              (0x9000%N, {[ "addr" := VStr "bc1qother" ]})] in
  let w1 := (send "status" true ∅ w).2 in
  address true true (VInt 1) w
    = (Raise (AssertionError [Lit "can only get pubkey on current slot"]),
       (send "dump" true {[ "slot" := VInt 1 ]} w1).2).
Proof.
  intros w w1.
  refine (proj2 (address_early_exits true true (VInt 1) w w1 (VBool false)
                   (VBool false)
                   {[ "slots" := VList [VInt 0; VInt 3];
                      "addr" := VStr "bc1qcurrent" ]}
                   (VList [VInt 0; VInt 3]) (VInt 0) _ _ _ _ _ _ _)
            _ _ {[ "addr" := VStr "bc1qother" ]} _ _);
    by_evaluation.
Defined.

(** On the scripted card: a certificate check that goes through. *)
Lemma certificate_check_run_witness :
  let w := Demo.session (VBytes Demo.nonce16)
             [(0x9000%N, {[ "pubkey" := VBytes [2%N; 9%N] ]});
              (0x9000%N, {[ "cert_chain" := VList [] ]});
              (0x9000%N, {[ "auth_sig" := VBytes [1%N] ]})] in
  (certificate_check w).1 = Ok (VStr "factory root") ∧
  sent (certificate_check w).2
    = [("check", {[ "nonce" := VBytes Demo.nonce16 ]}); ("certs", ∅);
       ("status", ∅)].
Proof.
  intros w.
  set (w1 := (send "status" true ∅ w).2).
  set (w2 := (send "certs" true ∅ w1).2).
  set (w4 := (send "check" true {[ "nonce" := VBytes Demo.nonce16 ]}
                (MkWorld (attrs w2) (ext w2) (sent w2))).2).
  assert (H : certificate_check w
              = (Ok (VStr "factory root"),
                 MkWorld (<["_certs_checked" := VBool true]> (attrs w4))
                         (ext w4) (sent w4)) ∧
              sent w4 = [("check", {[ "nonce" := VBytes Demo.nonce16 ]});
                         ("certs", ∅); ("status", ∅)] ∧
              attrs w4 !! "_certs_checked" = attrs w !! "_certs_checked").
  { refine (certificate_check_run w w1 w2 w4
              {[ "pubkey" := VBytes [2%N; 9%N] ]} {[ "cert_chain" := VList [] ]}
              (VBytes Demo.nonce16) (ext w2) {[ "auth_sig" := VBytes [1%N] ]}
              _ _ _ _); by_evaluation. }
  destruct H as (Hrun & Hsent & _). rewrite Hrun. split; [reflexivity|].
  exact Hsent.
Defined.

(** On the scripted card: a caller who passes an 'xcvc' of his own to
    'xpub' sees it replaced by the authenticator's. *)
Lemma send_auth_fields_take_precedence_witness :
  let cvc := VBytes [49; 50; 51; 52; 53; 54]%N in
  let w := Demo.session (VBytes Demo.nonce16) [(0x9000%N, ∅)] in
  ∃ sent_args,
    transmits (send_auth "xpub" cvc {[ "xcvc" := VBytes [0%N];
                                       "master" := VBool true ]})
      w "xpub" sent_args ∧
    sent_args !! "xcvc" = Some cvc ∧
    sent_args !! "master" = Some (VBool true).
Proof.
  intros cvc w.
  set (auth := ({[ "epubkey" := VBytes [2%N; 3%N]; "xcvc" := cvc ]} : Args)).
  set (args := ({[ "xcvc" := VBytes [0%N]; "master" := VBool true ]} : Args)).
  assert (Hkw : kw_plain (auth ∪ args)).
  { split; [by_evaluation|]. split; by_evaluation. }
  assert (Hx : calc_xcvc "xpub" (VBytes Demo.nonce16) (VBytes [2%N; 9%N]) cvc
                 (ext w) = (Ok (VBytes Demo.key32, auth), [(0x9000%N, ∅)]))
    by by_evaluation.
  destruct (send_auth_fields_take_precedence "xpub" cvc args w
              (VBytes Demo.nonce16) (VBytes [2%N; 9%N]) (VBytes Demo.key32)
              auth [(0x9000%N, ∅)] eq_refl eq_refl eq_refl Hx Hkw
              ltac:(discriminate) ltac:(discriminate))
    as (sent_args & Htr & Hauth & Hrest).
  exists sent_args. split; [exact Htr|]. split.
  - apply Hauth. by_evaluation.
  - rewrite Hrest by by_evaluation. by_evaluation.
Defined.

(** On the scripted card: the code 123456 is changed to 000000; what goes
    out as 'data' is 000000 XORed with six bytes of the session key. *)
Lemma change_cvc_sends_masked_code_witness :
  let old := VBytes [49; 50; 51; 52; 53; 54]%N in
  let w := Demo.session (VBytes Demo.nonce16) [(0x9000%N, ∅)] in
  transmits (change_cvc old (VBytes (replicate 6 0x30%N))) w "change"
    (<["data" := VBytes (replicate 6 0x6a%N)]>
       {[ "epubkey" := VBytes [2%N; 3%N]; "xcvc" := old ]}).
Proof.
  intros old w.
  refine (change_cvc_sends_masked_code old (VBytes (replicate 6 0x30%N)) w
            6 (replicate 6 0x30%N) (VBytes Demo.nonce16) (VBytes [2%N; 9%N])
            Demo.key32 {[ "epubkey" := VBytes [2%N; 3%N]; "xcvc" := old ]}
            [(0x9000%N, ∅)] eq_refl ltac:(lia) eq_refl eq_refl eq_refl eq_refl
            eq_refl _ _ _).
  - by_evaluation.
  - split; [by_evaluation|]. split; by_evaluation.
  - vm_compute. lia.
Defined.

Ltac in_list :=
  solve [repeat first [apply list_elem_of_here | apply list_elem_of_further]].

Ltac keeps_among :=
  repeat keeps_step; try solve [unfold nonce_only; auto | in_list].

Section Footprints.
Context {Ext : Type} `{!Externals Ext} `{!PathHelpers}.

Lemma keeps_send_auth_among (C : string → Prop) cmd cvc args :
  C cmd → keeps nonce_only C (send_auth cmd cvc args).
Proof. intros HC. apply keeps_send_auth; [reflexivity | exact HC]. Qed.


Lemma evolves_weaken (K K' C C' : string → Prop) (w w' : World Ext) :
  (∀ k, K' k → K k) → (∀ c, C' c → C c) →
  evolves K' C' w w' → evolves K C w w'.
Proof.
  intros HK HC [Ha (l & Hs & Hl)]. split.
  - intros k Hk. apply Ha. intros Hk'. apply Hk, HK, Hk'.
  - exists l. split; [done|]. eapply Forall_impl; [exact Hl|].
    intros c. apply HC.
Qed.

(** The commands each method can send, and what it can change.  Apart
    from [first_look], which assigns the attributes of the session, and
    the certificate flag set by [certificate_check] and by a full
    [address], a method changes nothing but the nonce.  'unseal' is sent
    by [unseal_slot] alone, 'change' by [change_cvc] alone, and no
    wrapper sends a command outside its list, on any path, returning or
    raising. *)
Theorem command_footprints :
  keeps (Ext:=Ext) (.∈ session_attributes) (.∈ ["status"]) first_look ∧
  keeps (Ext:=Ext) session_state (.∈ ["status"; "certs"; "check"])
    certificate_check ∧
  (∀ faster incl_pubkey slot,
     keeps (Ext:=Ext) session_state
       (.∈ ["status"; "certs"; "check"; "dump"; "read"; "derive"])
       (address faster incl_pubkey slot)) ∧
  (∀ old_cvc new_cvc,
     keeps (Ext:=Ext) nonce_only (.∈ ["change"]) (change_cvc old_cvc new_cvc)) ∧
  (∀ cvc,
     keeps (Ext:=Ext) nonce_only (.∈ ["dump"; "unseal"]) (unseal_slot cvc)) ∧
  (∀ cvc slot,
     keeps (Ext:=Ext) nonce_only (.∈ ["dump"]) (get_privkey cvc slot)) ∧
  (∀ slot cvc,
     keeps (Ext:=Ext) nonce_only (.∈ ["dump"; "status"; "read"])
       (get_slot_usage slot cvc)) ∧
  keeps (Ext:=Ext) nonce_only (.∈ ["status"]) get_derivation ∧
  (∀ path cvc,
     keeps (Ext:=Ext) nonce_only (.∈ ["derive"]) (set_derivation path cvc)) ∧
  (∀ cvc, keeps (Ext:=Ext) nonce_only (.∈ ["xpub"]) (get_xfp cvc)) ∧
  (∀ cvc master,
     keeps (Ext:=Ext) nonce_only (.∈ ["xpub"]) (get_xpub cvc master)) ∧
  (∀ cvc, keeps (Ext:=Ext) nonce_only (.∈ ["backup"]) (make_backup cvc)) ∧
  keeps (Ext:=Ext) nonce_only (.∈ ["status"]) get_status ∧
  keeps (Ext:=Ext) nonce_only (.∈ ["nfc"]) get_nfc_url.
Proof.
  assert (Hcert : keeps (Ext:=Ext) session_state (.∈ ["status"; "certs"; "check"])
                    certificate_check).
  { unfold certificate_check, session_state. keeps_among. }
  repeat apply conj.
  - unfold first_look, session_attributes. keeps_among.
  - exact Hcert.
  - intros faster incl_pubkey slot. unfold address, session_state.
    keeps_among.
    eapply keeps_weaken; [| |exact Hcert]; [auto|].
    intros c Hc. repeat (apply elem_of_cons in Hc as [-> | Hc]; [in_list|]).
    inversion Hc.
  - intros. unfold change_cvc. keeps_among.
    apply keeps_send_auth_among. in_list.
  - intros. unfold unseal_slot. keeps_among.
    apply keeps_send_auth_among. in_list.
  - intros. unfold get_privkey. keeps_among.
    apply keeps_send_auth_among. in_list.
  - intros slot cvc. unfold get_slot_usage. keeps_among.
    + apply keeps_send_auth_among. in_list.
    + intros w r w' Hrun.
      eapply evolves_weaken; [| |eapply address_faster_evolves, Hrun].
      * auto.
      * unfold faster_cmd. intros c [-> | [-> | ->]]; in_list.
  - unfold get_derivation. keeps_among.
  - intros. unfold set_derivation. keeps_among.
    apply keeps_send_auth_among. in_list.
  - intros. unfold get_xfp. keeps_among.
    apply keeps_send_auth_among. in_list.
  - intros. unfold get_xpub. keeps_among.
    apply keeps_send_auth_among. in_list.
  - intros. unfold make_backup. keeps_among.
    apply keeps_send_auth_among. in_list.
  - unfold get_status. keeps_among.
  - unfold get_nfc_url. keeps_among.
Qed.

End Footprints.

(** On the scripted card: the card answers the first command of the
    certificate check with an error; the full [address] call ends with
    that error and has sent nothing else. *)
Lemma address_stops_on_failed_check_witness :
  let w := Demo.session (VBytes Demo.nonce16)
             [(0x6a80%N, {[ "error" := VStr "bad state"; "code" := VInt 406 ]});
              (0x9000%N, {[ "slots" := VList [VInt 0; VInt 1];
                            "addr" := VStr "bc1qcurrent" ]})] in
  (address false false VNone w).1
    = Raise (CardRuntimeError
               [Fmt (VInt 406); Lit " on "; Lit "status"; Lit ": ";
                Fmt (VStr "bad state")] (VInt 406) (VStr "bad state")) ∧
  sent (address false false VNone w).2 = [("status", ∅)].
Proof.
  intros w.
  assert (Hcert : certificate_check w
                  = (Raise (CardRuntimeError
                              [Fmt (VInt 406); Lit " on "; Lit "status";
                               Lit ": "; Fmt (VStr "bad state")]
                              (VInt 406) (VStr "bad state")),
                     (certificate_check w).2)) by by_evaluation.
  rewrite (address_stops_on_failed_check false VNone w _ (VBool false)
             (VBool false) _ eq_refl eq_refl eq_refl eq_refl Hcert).
  split; [reflexivity | by_evaluation].
Defined.
